(** * gotool: the RPC message protocol and the session transport

    A shallow embedding of the wire protocol of package [protocol]
    (header flags, metadata TLV codec, [Encode], [WriteTo], [Decode]) and
    of the session layer of package [server] ([Close], [attemptConnWrite],
    [AllocateContext]), followed by the properties the specification states
    about them.

    Conventions.
    - A Go [byte] is a [Byte.byte]; arithmetic on it goes through [Z] with
      the truncation of the conversion written out ([byte_of_Z]).
    - A Go [uint32] is a [Z] kept in range by [wrap32]; a Go [int] is a
      [Z] (64-bit platform, no wrap-around is reachable for lengths).
    - A Go [string] is a [string]: both are plain sequences of 8-bit
      characters.
    - A Go [map[string]string] is a [gmap string string]; the order in
      which [range] visits it is an explicit argument.
    - A Go slice is a window on a backing array: the visible elements and
      the spare capacity behind them ([Slice]).  Re-slicing past the
      capacity panics; re-slicing past the length but within the capacity
      silently exposes the spare bytes. *)

From Stdlib Require Import ZArith Lia List.
From Stdlib.Strings Require Import Byte Ascii String.
From stdpp Require Import gmap strings list.

Local Open Scope Z_scope.

(** ** Go runtime values *)

Module Go.

(** Outcome of running a Go function: it returns, or it panics.  Loops
    whose termination is not structural run on fuel; [OutOfFuel] is the
    outcome of a run that was given too little. *)
Inductive exec (A : Type) : Type :=
| Returns (a : A)
| Panics
| OutOfFuel.
Arguments Returns {A} a.
Arguments Panics {A}.
Arguments OutOfFuel {A}.

Definition bind {A B} (x : exec A) (k : A -> exec B) : exec B :=
  match x with
  | Returns a => k a
  | Panics => Panics
  | OutOfFuel => OutOfFuel
  end.

(** [byte(z)]: conversion of an integer to a byte keeps the low 8 bits. *)
Definition byte_of_Z (z : Z) : byte :=
  match Byte.of_N (Z.to_N (z mod 256)) with
  | Some b => b
  | None => x00
  end.

Definition Z_of_byte (b : byte) : Z := Z.of_N (Byte.to_N b).

(** [uint32(z)]: conversion of an integer to [uint32], and arithmetic on
    [uint32], keep the low 32 bits. *)
Definition wrap32 (z : Z) : Z := z mod 2 ^ 32.

(** [int64] arithmetic (used by [time.Duration]) wraps in two's
    complement. *)
Definition wrap64 (z : Z) : Z := (z + 2 ^ 63) mod 2 ^ 64 - 2 ^ 63.

(** [len(s)] as a Go [int]. *)
Definition len {A} (l : list A) : Z := Z.of_nat (length l).

(** [util.StringToSliceByte] and [util.SliceByteToString] (and the
    conversions [[]byte(s)], [string(b)]). *)
Definition StringToSliceByte (s : string) : list byte := list_byte_of_string s.
Definition SliceByteToString (b : list byte) : string := string_of_list_byte b.

(** A slice: [arr] are the elements below [len], [spare] the elements of
    the backing array between [len] and [cap]. *)
Record Slice : Type := mkSlice { arr : list byte; spare : list byte }.

Definition nilSlice : Slice := mkSlice [] [].
Definition slen (s : Slice) : Z := len (arr s).
Definition scap (s : Slice) : Z := len (arr s) + len (spare s).

(** [make([]byte, n)]: length and capacity [n], zeroed. *)
Definition make (n : Z) : Slice := mkSlice (replicate (Z.to_nat n) x00) [].

(** [s[lo:hi]]: legal when [0 <= lo <= hi <= cap(s)]. *)
Definition reslice (s : Slice) (lo hi : Z) : exec Slice :=
  if (0 <=? lo) && (lo <=? hi) && (hi <=? scap s) then
    let backing := arr s ++ spare s in
    Returns (mkSlice (take (Z.to_nat (hi - lo)) (drop (Z.to_nat lo) backing))
                     (drop (Z.to_nat hi) backing))
  else Panics.

(** [s[lo:]]: the upper bound defaults to [len(s)]. *)
Definition reslice_from (s : Slice) (lo : Z) : exec Slice :=
  if (0 <=? lo) && (lo <=? slen s) then reslice s lo (slen s) else Panics.

(** [copy(dst[lo:hi], src)] on a buffer [dst] given by its elements
    ([hi = None] is [dst[lo:]]).  Slicing outside the buffer panics; the
    number of bytes copied is the smaller of the two lengths. *)
Definition copy_to (lo : nat) (hi : option nat) (src dst : list byte)
    : exec (list byte) :=
  let hi := default (length dst) hi in
  if ((lo <=? hi)%nat && (hi <=? length dst)%nat)%bool then
    Returns (take lo dst ++ take (hi - lo) src
                         ++ drop (lo + Nat.min (hi - lo) (length src)) dst)
  else Panics.

(** [binary.BigEndian.PutUint32]: the four bytes of [v], high byte first. *)
Definition PutUint32 (v : Z) : list byte :=
  [ byte_of_Z (Z.shiftr v 24); byte_of_Z (Z.shiftr v 16);
    byte_of_Z (Z.shiftr v 8); byte_of_Z v ].

(** [binary.BigEndian.Uint32]: reads the first four bytes, panics on a
    shorter slice. *)
Definition Uint32 (b : list byte) : exec Z :=
  match b with
  | b0 :: b1 :: b2 :: b3 :: _ =>
      Returns (Z.lor (Z.lor (Z.lor (Z_of_byte b3) (Z.shiftl (Z_of_byte b2) 8))
                            (Z.shiftl (Z_of_byte b1) 16))
                     (Z.shiftl (Z_of_byte b0) 24))
  | _ => Panics
  end.

(** [io.ReadFull(r, buf)] on a reader that delivers the bytes [r] and then
    end of file: [n] is [len(buf)].  The second component is what is left
    of the stream. *)
Inductive io_error : Type := EOF | ErrUnexpectedEOF.

Definition ReadFull (r : list byte) (n : nat) : (list byte + io_error) * list byte :=
  if (n <=? length r)%nat then (inl (take n r), drop n r)
  else match r with
       | [] => (inr EOF, [])
       | _ => (inr ErrUnexpectedEOF, [])
       end.

(** [uint64(z)] keeps the low 64 bits. *)
Definition wrapu64 (z : Z) : Z := z mod 2 ^ 64.

(** [binary.BigEndian.PutUint64]: the eight bytes of [v], high byte
    first. *)
Definition PutUint64 (v : Z) : list byte :=
  [ byte_of_Z (Z.shiftr v 56); byte_of_Z (Z.shiftr v 48);
    byte_of_Z (Z.shiftr v 40); byte_of_Z (Z.shiftr v 32);
    byte_of_Z (Z.shiftr v 24); byte_of_Z (Z.shiftr v 16);
    byte_of_Z (Z.shiftr v 8); byte_of_Z v ].

(** [binary.BigEndian.Uint64]: reads the first eight bytes, panics on a
    shorter slice. *)
Definition Uint64 (b : list byte) : exec Z :=
  match b with
  | b0 :: b1 :: b2 :: b3 :: b4 :: b5 :: b6 :: b7 :: _ =>
      Returns
        (Z.lor (Z.lor (Z.lor (Z.lor (Z.lor (Z.lor (Z.lor
           (Z_of_byte b7) (Z.shiftl (Z_of_byte b6) 8))
           (Z.shiftl (Z_of_byte b5) 16)) (Z.shiftl (Z_of_byte b4) 24))
           (Z.shiftl (Z_of_byte b3) 32)) (Z.shiftl (Z_of_byte b2) 40))
           (Z.shiftl (Z_of_byte b1) 48)) (Z.shiftl (Z_of_byte b0) 56))
  | _ => Panics
  end.

End Go.

Notation "'do' x <- e ; k" := (Go.bind e (fun x => k))
  (at level 10, x name, e at level 100, k at level 200).

(** ** Package protocol: the message framer *)

Module protocol.
Import Go.

(** *** Header (unnamed/part_000) *)

Definition magicNumber : byte := x08.

(** [type Header [12]byte]. *)
Record Header : Type := mkHeader {
  h0 : byte; h1 : byte; h2 : byte; h3 : byte;
  h4 : byte; h5 : byte; h6 : byte; h7 : byte;
  h8 : byte; h9 : byte; h10 : byte; h11 : byte
}.

(** [h[:]] *)
Definition Header_bytes (h : Header) : list byte :=
  [h0 h; h1 h; h2 h; h3 h; h4 h; h5 h; h6 h; h7 h; h8 h; h9 h; h10 h; h11 h].

(** The array whose first bytes are overwritten by [bs]; bytes that [bs]
    does not reach keep the value they have in [old]. *)
Definition Header_overwrite (bs : list byte) (old : Header) : Header :=
  let b := take 12 (bs ++ drop (length bs) (Header_bytes old)) in
  mkHeader (nth 0 b x00) (nth 1 b x00) (nth 2 b x00) (nth 3 b x00)
           (nth 4 b x00) (nth 5 b x00) (nth 6 b x00) (nth 7 b x00)
           (nth 8 b x00) (nth 9 b x00) (nth 10 b x00) (nth 11 b x00).

Definition set_h2 (h : Header) (b : byte) : Header :=
  mkHeader (h0 h) (h1 h) b (h3 h) (h4 h) (h5 h) (h6 h) (h7 h)
           (h8 h) (h9 h) (h10 h) (h11 h).

Definition RpcMessageType := byte.
Definition Request : RpcMessageType := x00.
Definition Response : RpcMessageType := x01.

Definition RpcMessageStatusType := byte.
Definition Normal : RpcMessageStatusType := x00.
Definition Error : RpcMessageStatusType := x01.

(** [None] of the source is [CompressNone] here ([None] is taken by
    [option]). *)
Definition CompressType := byte.
Definition CompressNone : CompressType := x00.
Definition Gzip : CompressType := x01.

(** Byte-typed operators: the operands are bytes and so is the result. *)
Definition band (a b : byte) : byte := byte_of_Z (Z.land (Z_of_byte a) (Z_of_byte b)).
Definition bor (a b : byte) : byte := byte_of_Z (Z.lor (Z_of_byte a) (Z_of_byte b)).
Definition bandnot (a b : byte) : byte := byte_of_Z (Z.ldiff (Z_of_byte a) (Z_of_byte b)).
Definition bshl (a : byte) (n : Z) : byte := byte_of_Z (Z.shiftl (Z_of_byte a) n).
Definition bshr (a : byte) (n : Z) : byte := byte_of_Z (Z.shiftr (Z_of_byte a) n).

Definition CheckMagicNumber (h : Header) : bool :=
  Byte.eqb (h0 h) magicNumber.

(** [return RpcMessageType(h[2]&0x80) >> 7] *)
Definition MessageType (h : Header) : RpcMessageType :=
  bshr (band (h2 h) x80) 7.

(** [h[2] = h[2] | (byte(mt) << 7)] *)
Definition SetMessageType (h : Header) (mt : RpcMessageType) : Header :=
  set_h2 h (bor (h2 h) (bshl mt 7)).

Definition IsHeartbeat (h : Header) : bool :=
  Byte.eqb (band (h2 h) x40) x40.

Definition SetHeartbeat (h : Header) (hb : bool) : Header :=
  if hb then set_h2 h (bor (h2 h) x40) else set_h2 h (bandnot (h2 h) x40).

Definition IsOneway (h : Header) : bool :=
  Byte.eqb (band (h2 h) x20) x20.

Definition SetOneway (h : Header) (oneway : bool) : Header :=
  if oneway then set_h2 h (bor (h2 h) x20) else set_h2 h (bandnot (h2 h) x20).

(** [return CompressType((h[2] & 0x1C) >> 2)] *)
Definition CompressTypeOf (h : Header) : CompressType :=
  bshr (band (h2 h) x1c) 2.

(** [h[2] = (h[2] &^ 0x1C) | ((byte(ct) << 2) & 0x1C)] *)
Definition SetCompressType (h : Header) (ct : CompressType) : Header :=
  set_h2 h (bor (bandnot (h2 h) x1c) (band (bshl ct 2) x1c)).

Definition MessageStatusType (h : Header) : RpcMessageStatusType :=
  band (h2 h) x03.

(** [h[2] = (h[2] &^ 0x03) | (byte(mt) & 0x03)] *)
Definition SetMessageStatusType (h : Header) (mt : RpcMessageStatusType) : Header :=
  set_h2 h (bor (bandnot (h2 h) x03) (band mt x03)).

(** *** Errors and compressors (protocol/message.go) *)

Inductive error : Type :=
| ErrIO (e : io_error)
| ErrWrongMagic (b : byte)
| ErrMetaKVMissing
| ErrRpcMessageTooLong
| ErrUnsupportedCompressor
| ErrExternal (msg : string).

(** The [Compressor] interface.  Its implementations are not part of the
    sources at hand; a compressor is any pair of functions of this shape. *)
Record Compressor : Type := mkCompressor {
  Zip : list byte -> list byte + error;
  Unzip : list byte -> list byte + error
}.

(** The global registry [Compressors]: a lookup of an unregistered code
    yields [nil]. *)
Definition Registry : Type := CompressType -> option Compressor.

(** *** Message body (unnamed/part_001) *)

Record Message : Type := mkMessage {
  MessageHeader : Header;
  ServicePath : string;
  ServiceMethod : string;
  Metadata : gmap string string;
  Payload : list byte;
  data : Slice
}.

(** [NewRpcMessage]: a zero header with the magic number, empty body. *)
Definition NewRpcMessage : Message :=
  mkMessage (mkHeader magicNumber x00 x00 x00 x00 x00 x00 x00 x00 x00 x00 x00)
            EmptyString EmptyString ∅ [] nilSlice.

(** One round of the loop of [encodeMetadata]: key length, key, value
    length, value are appended to the buffer. *)
Definition encodeMetadata_step (bb : list byte) (kv : string * string) : list byte :=
  bb ++ PutUint32 (wrap32 (len (StringToSliceByte kv.1))) ++ StringToSliceByte kv.1
     ++ PutUint32 (wrap32 (len (StringToSliceByte kv.2))) ++ StringToSliceByte kv.2.

(** [encodeMetadata(m, bb)]; [iter] is the sequence of pairs in the order in
    which [for k, v := range m] delivers them. *)
Definition encodeMetadata (iter : list (string * string)) (bb : list byte) : list byte :=
  match iter with
  | [] => bb
  | _ => foldl encodeMetadata_step bb iter
  end.

(** The loop of [decodeMetadata], with cursor [n] and map [m].  All of
    [n], [sl], [l] are [uint32]: sums and differences wrap. *)
Fixpoint decodeMetadata_loop (fuel : nat) (l : Z) (data : Slice) (n : Z)
    (m : gmap string string) : exec (gmap string string * option error) :=
  match fuel with
  | O => OutOfFuel
  | S fuel =>
      if n <? l then
        do s <- reslice data n (wrap32 (n + 4));
        do sl <- Uint32 (arr s);
        let n := wrap32 (n + 4) in
        if wrap32 (n + sl) >? wrap32 (l - 4) then Returns (m, Some ErrMetaKVMissing)
        else
          do ks <- reslice data n (wrap32 (n + sl));
          let k := SliceByteToString (arr ks) in
          let n := wrap32 (n + sl) in
          do s <- reslice data n (wrap32 (n + 4));
          do sl <- Uint32 (arr s);
          let n := wrap32 (n + 4) in
          if wrap32 (n + sl) >? l then Returns (m, Some ErrMetaKVMissing)
          else
            do vs <- reslice data n (wrap32 (n + sl));
            let v := SliceByteToString (arr vs) in
            let n := wrap32 (n + sl) in
            decodeMetadata_loop fuel l data n (<[k := v]> m)
      else Returns (m, None)
  end.

(** [decodeMetadata(l, data)].  Every round moves the cursor forward, so
    [l] rounds and one more test are enough. *)
Definition decodeMetadata (l : Z) (data : Slice)
    : exec (gmap string string * option error) :=
  decodeMetadata_loop (S (Z.to_nat l)) l data 0 ∅.

(** *** Encode, WriteTo, Decode (protocol/message.go) *)

(** [bufferPool.Get(l)]: a buffer of length [l] whose contents are whatever
    the pool holds ([stale]). *)
Definition bufferPool_Get (stale : list byte) (l : nat) : list byte :=
  take l (stale ++ replicate l x00).

(** The payload that goes on the wire and the header after the
    compression step shared by [EncodeSlicePointer] (lines 131-144).  The
    header is reached through a pointer, so [m.SetCompressType(None)] on
    the value receiver changes the header of the caller's message. *)
Definition Encode_compress (cs : Registry) (m : Message) : list byte * Header :=
  let h := MessageHeader m in
  if negb (Byte.eqb (CompressTypeOf h) CompressNone) then
    match cs (CompressTypeOf h) with
    | None => (Payload m, SetCompressType h CompressNone)
    | Some compressor =>
        match Zip compressor (Payload m) with
        | inl zipped => (zipped, h)
        | inr _ => (Payload m, SetCompressType h CompressNone)
        end
    end
  else (Payload m, h).

(** [binary.BigEndian.PutUint32(dst[lo:hi], v)]: the window must hold
    four bytes. *)
Definition PutUint32_to (lo hi : nat) (v : Z) (dst : list byte) : exec (list byte) :=
  if (4 <=? hi - lo)%nat then copy_to lo (Some hi) (PutUint32 v) dst else Panics.

(** [EncodeSlicePointer]: the frame, and the message as the call leaves
    it.  [iter] is the iteration order of [m.Metadata], [stale] the
    contents of the pooled buffer. *)
Definition EncodeSlicePointer (cs : Registry) (stale : list byte)
    (iter : list (string * string)) (m : Message) : exec (list byte * Message) :=
  let meta := encodeMetadata iter [] in
  let spL := String.length (ServicePath m) in
  let smL := String.length (ServiceMethod m) in
  let '(payload, h) := Encode_compress cs m in
  let totalL := ((4 + spL) + (4 + smL) + (4 + length meta) + (4 + length payload))%nat in
  let metaStart := (12 + 4 + (4 + spL) + (4 + smL))%nat in
  let payLoadStart := (metaStart + (4 + length meta))%nat in
  let l := (12 + 4 + totalL)%nat in
  let d := bufferPool_Get stale l in
  do d <- copy_to 0 None (Header_bytes h) d;
  do d <- PutUint32_to 12 16 (wrap32 (Z.of_nat totalL)) d;
  do d <- PutUint32_to 16 20 (wrap32 (Z.of_nat spL)) d;
  do d <- copy_to 20 (Some (20 + spL)%nat) (StringToSliceByte (ServicePath m)) d;
  do d <- PutUint32_to (20 + spL) (24 + spL) (wrap32 (Z.of_nat smL)) d;
  do d <- copy_to (24 + spL) (Some metaStart) (StringToSliceByte (ServiceMethod m)) d;
  do d <- PutUint32_to metaStart (metaStart + 4) (wrap32 (len meta)) d;
  do d <- copy_to (metaStart + 4) None meta d;
  do d <- PutUint32_to payLoadStart (payLoadStart + 4) (wrap32 (len payload)) d;
  do d <- copy_to (payLoadStart + 4) None payload d;
  Returns (d, mkMessage h (ServicePath m) (ServiceMethod m) (Metadata m)
                        (Payload m) (data m)).

Definition Encode (cs : Registry) (stale : list byte)
    (iter : list (string * string)) (m : Message) : exec (list byte * Message) :=
  EncodeSlicePointer cs stale iter m.

Section Writer.
(** An [io.Writer]: a state and a [Write] method that reports the number
    of bytes written and, possibly, an error. *)
Context {W : Type}.
Variable Write : W -> list byte -> Z * option error * W.

(** [binary.Write(w, binary.BigEndian, uint32(v))] *)
Definition binary_Write (w : W) (v : Z) : option error * W :=
  let '(_, err, w) := Write w (PutUint32 (wrap32 v)) in (err, w).

(** [WriteTo]: byte count, error, and the writer afterwards. *)
Definition WriteTo (cs : Registry) (iter : list (string * string))
    (m : Message) (w : W) : Z * option error * W :=
  let '(nn, err, w) := Write w (Header_bytes (MessageHeader m)) in
  let n := nn in
  match err with Some e => (n, Some e, w) | None =>
  let meta := encodeMetadata iter [] in
  let spL := Z.of_nat (String.length (ServicePath m)) in
  let smL := Z.of_nat (String.length (ServiceMethod m)) in
  let compressed : list byte + error :=
    if negb (Byte.eqb (CompressTypeOf (MessageHeader m)) CompressNone) then
      match cs (CompressTypeOf (MessageHeader m)) with
      | None => inr ErrUnsupportedCompressor
      | Some compressor => Zip compressor (Payload m)
      end
    else inl (Payload m) in
  match compressed with inr e => (n, Some e, w) | inl payload =>
  let totalL := (4 + spL) + (4 + smL) + (4 + len meta) + (4 + len payload) in
  let '(err, w) := binary_Write w totalL in
  match err with Some e => (n, Some e, w) | None =>
  let '(err, w) := binary_Write w spL in
  match err with Some e => (n, Some e, w) | None =>
  let '(_, err, w) := Write w (StringToSliceByte (ServicePath m)) in
  match err with Some e => (n, Some e, w) | None =>
  let '(err, w) := binary_Write w smL in
  match err with Some e => (n, Some e, w) | None =>
  let '(_, err, w) := Write w (StringToSliceByte (ServiceMethod m)) in
  match err with Some e => (n, Some e, w) | None =>
  let '(err, w) := binary_Write w (len meta) in
  match err with Some e => (n, Some e, w) | None =>
  let '(_, err, w) := Write w meta in
  match err with Some e => (n, Some e, w) | None =>
  let '(err, w) := binary_Write w (len payload) in
  match err with Some e => (n, Some e, w) | None =>
  Write w payload
  end end end end end end end end end end.
End Writer.

(** The tail of [Decode] (lines 382-393): decompression of the payload.
    When [Unzip] fails the payload becomes what [Unzip] returned next to
    its error, taken to be the empty slice. *)
Definition Decode_unzip (cs : Registry) (m : Message) : option error * Message :=
  if negb (Byte.eqb (CompressTypeOf (MessageHeader m)) CompressNone) then
    match cs (CompressTypeOf (MessageHeader m)) with
    | None => (Some ErrUnsupportedCompressor, m)
    | Some compressor =>
        match Unzip compressor (Payload m) with
        | inl p => (None, mkMessage (MessageHeader m) (ServicePath m) (ServiceMethod m)
                                    (Metadata m) p (data m))
        | inr e => (Some e, mkMessage (MessageHeader m) (ServicePath m) (ServiceMethod m)
                                      (Metadata m) [] (data m))
        end
    end
  else (None, m).

(** The middle of [Decode] (lines 348-380): path, method, metadata and
    payload are cut out of the body buffer [d] by a moving cursor. *)
Definition Decode_body (cs : Registry) (m : Message) (d : Slice)
    : exec (option error * Message) :=
  let h := MessageHeader m in
  let n := 0 in
  do s <- reslice d n 4;
  do l <- Uint32 (arr s);
  let n := n + 4 in
  let nEnd := n + l in
  do s <- reslice d n nEnd;
  let sp := SliceByteToString (arr s) in
  let n := nEnd in
  do s <- reslice d n (n + 4);
  do l <- Uint32 (arr s);
  let n := n + 4 in
  let nEnd := n + l in
  do s <- reslice d n nEnd;
  let sm := SliceByteToString (arr s) in
  let n := nEnd in
  do s <- reslice d n (n + 4);
  do l <- Uint32 (arr s);
  let n := n + 4 in
  let nEnd := n + l in
  do md <- (if l >? 0 then
              do s <- reslice d n nEnd;
              decodeMetadata l s
            else Returns (Metadata m, None));
  match md.2 with
  | Some e => Returns (Some e, mkMessage h sp sm md.1 (Payload m) d)
  | None =>
      let n := nEnd in
      do s <- reslice d n (n + 4);
      do l <- Uint32 (arr s);
      let n := n + 4 in
      do s <- reslice_from d n;
      Returns (Decode_unzip cs (mkMessage h sp sm md.1 (arr s) d))
  end.

Definition with_header (m : Message) (h : Header) : Message :=
  mkMessage h (ServicePath m) (ServiceMethod m) (Metadata m) (Payload m) (data m).

Definition with_data (m : Message) (d : Slice) : Message :=
  mkMessage (MessageHeader m) (ServicePath m) (ServiceMethod m) (Metadata m)
            (Payload m) d.

(** [Decode]: reads one frame from the stream [r] into [m].  The result
    is the error (if any), the message as the call leaves it, and the rest
    of the stream.  [MaxRpcMessageLength] is the package-level limit. *)
Definition Decode (MaxRpcMessageLength : Z) (cs : Registry) (m : Message)
    (r : list byte) : exec (option error * Message * list byte) :=
  match ReadFull r 1 with
  | (inr e, r) => Returns (Some (ErrIO e), m, r)
  | (inl b, r) =>
  let m := with_header m (Header_overwrite b (MessageHeader m)) in
  if negb (CheckMagicNumber (MessageHeader m)) then
    Returns (Some (ErrWrongMagic (h0 (MessageHeader m))), m, r)
  else
  match ReadFull r 11 with
  | (inr e, r') =>
      Returns (Some (ErrIO e),
               with_header m (Header_overwrite (h0 (MessageHeader m) :: r) (MessageHeader m)),
               r')
  | (inl bs, r) =>
  let m := with_header m (Header_overwrite (h0 (MessageHeader m) :: bs) (MessageHeader m)) in
  match ReadFull r 4 with
  | (inr e, r) => Returns (Some (ErrIO e), m, r)
  | (inl lenData, r) =>
  do l <- Uint32 lenData;
  if (MaxRpcMessageLength >? 0) && (l >? MaxRpcMessageLength) then
    Returns (Some ErrRpcMessageTooLong, m, r)
  else
  let totalL := l in
  do d <- (if scap (data m) >=? totalL then reslice (data m) 0 totalL
           else Returns (make totalL));
  match ReadFull r (Z.to_nat totalL) with
  | (inr e, r') =>
      Returns (Some (ErrIO e),
               with_data m (mkSlice (r ++ drop (length r) (arr d)) (spare d)), r')
  | (inl body, r) =>
  let d := mkSlice body (spare d) in
  do res <- Decode_body cs (with_data m d) d;
  Returns (res.1, res.2, r)
  end end end end.

(** [Read]: decodes into a fresh message; the message is returned only
    when there is no error. *)
Definition Read (MaxRpcMessageLength : Z) (cs : Registry) (r : list byte)
    : exec ((Message + error) * list byte) :=
  do res <- Decode MaxRpcMessageLength cs NewRpcMessage r;
  match res.1.1 with
  | Some e => Returns (inr e, res.2)
  | None => Returns (inl res.1.2, res.2)
  end.

(** *** The rest of the header accessors (unnamed/part_000) *)

Definition CodecType := byte.

Definition Version (h : Header) : byte := h1 h.

Definition SetVersion (h : Header) (v : byte) : Header :=
  mkHeader (h0 h) v (h2 h) (h3 h) (h4 h) (h5 h) (h6 h) (h7 h)
           (h8 h) (h9 h) (h10 h) (h11 h).

(** [return codec.CodecType((h[3] & 0xF0) >> 4)] *)
Definition SerializeType (h : Header) : CodecType :=
  bshr (band (h3 h) xf0) 4.

(** [h[3] = (h[3] &^ 0xF0) | (byte(st) << 4)] *)
Definition SetSerializeType (h : Header) (st : CodecType) : Header :=
  mkHeader (h0 h) (h1 h) (h2 h) (bor (bandnot (h3 h) xf0) (bshl st 4))
           (h4 h) (h5 h) (h6 h) (h7 h) (h8 h) (h9 h) (h10 h) (h11 h).

(** [return binary.BigEndian.Uint64(h[4:])] *)
Definition Seq (h : Header) : exec Z :=
  Uint64 (drop 4 (Header_bytes h)).

(** [binary.BigEndian.PutUint64(h[4:], seq)]; [seq] is a [uint64]. *)
Definition SetSeq (h : Header) (seq : Z) : Header :=
  Header_overwrite (take 4 (Header_bytes h) ++ PutUint64 (wrapu64 seq)) h.

(** [copy(h[1:], zeroHeader)]: eleven zero bytes behind the first. *)
Definition resetHeader (h : Header) : Header :=
  Header_overwrite (h0 h :: replicate 11 x00) h.

(** *** The rest of the message functions (protocol/message.go) *)

(** [Clone]; [pooled] is the message [GetPooledMsg()] hands out (that
    function is not part of the sources at hand).  The header is copied
    by value before its compression code is cleared. *)
Definition Clone (pooled : Message) (m : Message) : Message :=
  let header := MessageHeader m in
  let header := SetCompressType header CompressNone in
  mkMessage header (ServicePath m) (ServiceMethod m)
            (Metadata pooled) (Payload pooled) (data pooled).

(** [ParseToBodyLen]: the length, the error, the message (its header is
    read into) and the rest of the stream. *)
Definition ParseToBodyLen (MaxRpcMessageLength : Z) (m : Message) (r : list byte)
    : exec (Z * option error * Message * list byte) :=
  match ReadFull r 1 with
  | (inr e, r) => Returns (0, Some (ErrIO e), m, r)
  | (inl b, r) =>
  let m := with_header m (Header_overwrite b (MessageHeader m)) in
  if negb (CheckMagicNumber (MessageHeader m)) then
    Returns (0, Some (ErrWrongMagic (h0 (MessageHeader m))), m, r)
  else
  match ReadFull r 11 with
  | (inr e, r') =>
      Returns (0, Some (ErrIO e),
               with_header m (Header_overwrite (h0 (MessageHeader m) :: r) (MessageHeader m)),
               r')
  | (inl bs, r) =>
  let m := with_header m (Header_overwrite (h0 (MessageHeader m) :: bs) (MessageHeader m)) in
  match ReadFull r 4 with
  | (inr e, r) => Returns (0, Some (ErrIO e), m, r)
  | (inl lenData, r) =>
  do l <- Uint32 lenData;
  if (MaxRpcMessageLength >? 0) && (l >? MaxRpcMessageLength) then
    Returns (0, Some ErrRpcMessageTooLong, m, r)
  else Returns (l, None, m, r)
  end end end.

(** [Reset]: [m.data[:0]] keeps the backing array, so what was visible
    becomes spare capacity. *)
Definition Reset (m : Message) : Message :=
  mkMessage (resetHeader (MessageHeader m)) EmptyString EmptyString ∅ []
            (mkSlice [] (arr (data m) ++ spare (data m))).

End protocol.

(** ** Package server: sessions and request contexts *)

Module server.
Import Go.

(** *** Request context (routeContext, NewContext, reset) *)

(** [context.Context] values: the background context, or one derived from
    it (with a deadline or a cancel function). *)
Inductive context : Type :=
| Background
| Derived (id : nat).

(** A [HandlerFunc] is known by its name only. *)
Definition HandlerFunc : Type := nat.

(** Pointers to sessions and engines. *)
Definition SessionPtr : Type := nat.
Definition EnginePtr : Type := nat.

(** [type routeContext struct]; [nil] maps and pointers are [None]. *)
Record routeContext : Type := mkRouteContext {
  rawCtx : context;
  Params : option (gmap string string);
  storage : option (gmap string string);
  Method : string;
  Path : string;
  handlers : list HandlerFunc;
  index : Z;
  reqMsg : option protocol.Message;
  rspMsg : option protocol.Message;
  session : option SessionPtr;
  engine : option EnginePtr
}.

Definition NewContext : routeContext :=
  mkRouteContext Background None None EmptyString EmptyString [] 0 None None None None.

(** [func (c *routeContext) reset()]: five assignments. *)
Definition reset (c : routeContext) : routeContext :=
  mkRouteContext Background (Params c) None (Method c) (Path c)
                 (handlers c) (index c) None None None (engine c).

Definition SetSession (c : routeContext) (sess : SessionPtr) : routeContext :=
  mkRouteContext (rawCtx c) (Params c) (storage c) (Method c) (Path c)
                 (handlers c) (index c) (reqMsg c) (rspMsg c) (Some sess) (engine c).

(** *** Sessions (server/session.go) *)

(** A [chan struct{}] on which nothing is ever sent: it is open or
    closed.  [close] of a closed channel panics. *)
Inductive chan : Type := ChanOpen | ChanClosed.

Definition close (c : chan) : exec chan :=
  match c with
  | ChanOpen => Returns ChanClosed
  | ChanClosed => Panics
  end.

(** [sync.Once]: [Do(f)] runs [f] if and only if no call of [Do] on this
    value has run before.  Calls of [Do] are serialised by the mutex of
    [Once]: a concurrent caller waits until the first call is over. *)
Record Once : Type := mkOnce { done : bool }.

Definition Once_Do {S} (o : Once) (f : S -> exec S) (s : S) : exec (Once * S) :=
  if done o then Returns (o, s)
  else do s' <- f s; Returns (mkOnce true, s').

(** [sync.Pool] of contexts: [Get] hands out an element that was [Put], or
    a new one. *)
Definition Pool : Type := list routeContext.

Definition Pool_Get (p : Pool) : routeContext * Pool :=
  match p with
  | c :: p => (c, p)
  | [] => (NewContext, [])
  end.

(** [type baseSession struct] (packer and codec play no part below). *)
Record baseSession : Type := mkBaseSession {
  id : string;
  closed : chan;
  closeOnce : Once;
  respQueue : list routeContext;
  ctxPool : Pool;
  asyncRouter : bool
}.

(** The [baseSession] of [newStreamSession] and [newWsSession]. *)
Definition newSession (uuid : string) (async : bool) : baseSession :=
  mkBaseSession uuid ChanOpen (mkOnce false) [] [] async.

(** [s.closeOnce.Do(func() { close(s.closed) })].  The second component
    tells whether this call fired the signal. *)
Definition Close (s : baseSession) : exec (baseSession * bool) :=
  do r <- Once_Do (closeOnce s) close (closed s);
  Returns (mkBaseSession (id s) r.2 r.1 (respQueue s) (ctxPool s) (asyncRouter s),
           negb (done (closeOnce s))).

(** Callers of [Close], in the order in which [Once] lets them in.  Each
    caller is recorded with the outcome of its call. *)
Fixpoint Close_all {Caller} (callers : list Caller) (s : baseSession)
    : exec (baseSession * list (Caller * bool)) :=
  match callers with
  | [] => Returns (s, [])
  | c :: callers =>
      do r <- Close s;
      do rs <- Close_all callers r.1;
      Returns (rs.1, (c, r.2) :: rs.2)
  end.

(** [AllocateContext] of the session at address [self]. *)
Definition AllocateContext (self : SessionPtr) (s : baseSession)
    : routeContext * baseSession :=
  let '(c, pool) := Pool_Get (ctxPool s) in
  let c := reset c in
  let c := SetSession c self in
  (c, mkBaseSession (id s) (closed s) (closeOnce s) (respQueue s) pool (asyncRouter s)).

(** *** Retrying writes *)

(** The errors a connection write can return, seen through the tests the
    retry loop applies: is it a [net.Error], and what do [Timeout()] and
    [Temporary()] answer. *)
Inductive conn_error : Type :=
| NetError (timeout temporary : bool)
| OtherError.

(** [time.Duration] is an [int64] count of nanoseconds. *)
Definition Duration : Type := Z.
Definition Millisecond : Duration := 1000000.
Definition Duration_mul (a b : Duration) : Duration := wrap64 (a * b).
Definition tempErrDelay : Duration := Duration_mul Millisecond 5.

(** One attempt as it shows from outside: the argument of [time.Sleep],
    then the outcome of the physical write. *)
Definition attempt : Type := Duration * option conn_error.

Section Conn.
(** A connection: a state and a [Write] method. *)
Context {C : Type}.
Variable Write : C -> list byte -> option conn_error * C.

(** The loop of [attemptConnWrite]; [remaining] is [attemptTimes - i],
    so the loop test [i < attemptTimes] is [remaining <> 0]. *)
Fixpoint attemptConnWrite_loop (remaining : nat) (i attemptTimes : Z)
    (outboundMsg : list byte) (conn : C) (err : option conn_error)
    : option conn_error * list attempt * C :=
  match remaining with
  | O => (err, [], conn)
  | S remaining =>
      let delay := Duration_mul tempErrDelay i in
      let '(err, conn) := Write conn outboundMsg in
      let break := (err, [(delay, err)], conn) in
      match err with
      | None => break
      | Some e =>
          if i =? attemptTimes - 1 then break
          else match e with
               | OtherError => break
               | NetError timeout temporary =>
                   if timeout then break
                   else if temporary then
                     let '(e, tr, conn) :=
                       attemptConnWrite_loop remaining (i + 1) attemptTimes
                                             outboundMsg conn err in
                     (e, (delay, err) :: tr, conn)
                   else break
               end
      end
  end.

(** [attemptConnWrite(outboundMsg, attemptTimes)]: the error returned,
    the attempts made, the connection afterwards. *)
Definition attemptConnWrite (outboundMsg : list byte) (attemptTimes : Z) (conn : C)
    : option conn_error * list attempt * C :=
  attemptConnWrite_loop (Z.to_nat attemptTimes) 0 attemptTimes outboundMsg conn None.
End Conn.

(** *** The key-value store and the handler chain of a context *)

(** A key is an [interface{}]: a string, or something else (on which the
    assertion [key.(string)] fails). *)
Inductive key : Type :=
| StringKey (s : string)
| OtherKey (n : nat).

Definition with_storage (c : routeContext) (st : option (gmap string string))
    : routeContext :=
  mkRouteContext (rawCtx c) (Params c) st (Method c) (Path c)
                 (handlers c) (index c) (reqMsg c) (rspMsg c) (session c) (engine c).

Definition with_index (c : routeContext) (i : Z) : routeContext :=
  mkRouteContext (rawCtx c) (Params c) (storage c) (Method c) (Path c)
                 (handlers c) i (reqMsg c) (rspMsg c) (session c) (engine c).

Section Store.
(** What the contexts derived from the background answer to [Value];
    the background context answers [nil] to every key. *)
Variable derived_Value : nat -> key -> option string.

Definition context_Value (ctx : context) (k : key) : option string :=
  match ctx with
  | Background => None
  | Derived id => derived_Value id k
  end.

(** [Value(key)]: the value ([nil] is [None]) and the context afterwards
    (a [nil] store is replaced by an empty one). *)
Definition Value (c : routeContext) (k : key) : option string * routeContext :=
  match k with
  | StringKey keyAsString =>
      let st := match storage c with
                | None => ∅
                | Some st => st
                end in
      let c := with_storage c (Some st) in
      match st !! keyAsString with
      | Some v => (Some v, c)
      | None => (context_Value (rawCtx c) k, c)
      end
  | OtherKey _ => (None, c)
  end.
End Store.

(** [SetValue(key, val)] *)
Definition SetValue (c : routeContext) (k : key) (val : string) : routeContext :=
  match k with
  | StringKey keyAsString =>
      let st := match storage c with
                | None => ∅
                | Some st => st
                end in
      with_storage c (Some (<[keyAsString := val]> st))
  | OtherKey _ => c
  end.

(** [DeleteKey(key)] *)
Definition DeleteKey (c : routeContext) (k : key) : routeContext :=
  match k with
  | StringKey keyAsString =>
      match storage c with
      | None => c
      | Some st => with_storage c (Some (delete keyAsString st))
      end
  | OtherKey _ => c
  end.

(** [Remove(key)]: [delete] on a [nil] map does nothing. *)
Definition Remove (c : routeContext) (k : string) : routeContext :=
  match storage c with
  | None => c
  | Some st => with_storage c (Some (delete k st))
  end.

(** What a handler does, as far as the chain is concerned: it has
    effects that can be observed (each one is given a tag), and it may
    call [c.Next()]. *)
Inductive action : Type :=
| Emit (tag : nat)
| CallNext.

Section Chain.
Variable body : HandlerFunc -> list action.

(** A handler running its actions from cursor [idx], with the effects
    so far in [log]; [next] is [c.Next()]. *)
Definition run_handler (next : Z -> list nat -> exec (Z * list nat))
    : list action -> Z -> list nat -> exec (Z * list nat) :=
  fix run acts idx log :=
    match acts with
    | [] => Returns (idx, log)
    | Emit t :: acts => run acts idx (log ++ [t])
    | CallNext :: acts => do r <- next idx log; run acts r.1 r.2
    end.

(** The loop of [Next], entered with the cursor already moved:
    [for ; c.index < s; c.index++ { c.handlers[c.index](c) }].  The
    index expression panics on a negative cursor. *)
Fixpoint Next_loop (fuel : nat) (hs : list HandlerFunc) (idx : Z) (log : list nat)
    : exec (Z * list nat) :=
  match fuel with
  | O => OutOfFuel
  | S fuel =>
      if idx <? len hs then
        if idx <? 0 then Panics
        else match hs !! Z.to_nat idx with
             | None => Panics
             | Some h =>
                 do r <- run_handler (fun i l => Next_loop fuel hs (i + 1) l)
                                     (body h) idx log;
                 Next_loop fuel hs (r.1 + 1) r.2
             end
      else Returns (idx, log)
  end.

(** [Next()]: the context with its cursor where the call leaves it, and
    the effects of the handlers.  Every call of the loop, nested or not,
    starts at a larger cursor than the one that made it, so the distance
    to the end of the chain bounds the nesting. *)
Definition Next (c : routeContext) (log : list nat) : exec (routeContext * list nat) :=
  let idx := index c + 1 in
  do r <- Next_loop (S (Z.to_nat (len (handlers c) - idx))) (handlers c) idx log;
  Returns (with_index c r.1, r.2).
End Chain.

End server.

(** * Auxiliary definitions *)

(** The 256 bytes, for properties that are checked byte by byte. *)
Definition all_bytes : list byte :=
  map (fun n => Go.byte_of_Z (Z.of_nat n)) (seq 0 256).

(** [n] physical writes of [msg] in a row: their outcomes and the
    connection afterwards. *)
Fixpoint Write_n {C} (Write : C -> list byte -> option server.conn_error * C)
    (msg : list byte) (n : nat) (conn : C) : list (option server.conn_error) * C :=
  match n with
  | O => ([], conn)
  | S n =>
      let '(o, conn) := Write conn msg in
      let '(os, conn) := Write_n Write msg n conn in
      (o :: os, conn)
  end.

(** The one outcome of a write after which the retry loop goes on: a
    [net.Error] that is temporary and not a timeout. *)
Definition transient : option server.conn_error :=
  Some (server.NetError false true).

(** A context as a finished request leaves it in the pool. *)
Definition used_context : server.routeContext :=
  server.mkRouteContext (server.Derived 7) (Some {["id" := "42"]})
    (Some {["user" := "alice"]}) "Call" "Echo" [1%nat; 2%nat; 3%nat] 3
    (Some protocol.NewRpcMessage) (Some protocol.NewRpcMessage) (Some 1%nat) (Some 9%nat).

(** What one run of the retry loop from index [i], with [remaining]
    attempts left, guarantees about its result. *)
Definition attempts_ok {C} (Write : C -> list byte -> option server.conn_error * C)
    (msg : list byte) (remaining : nat) (i : Z) (conn : C)
    (res : option server.conn_error * list server.attempt * C) : Prop :=
  let '(err, tr, conn') := res in
  (1 <= length tr <= remaining)%nat
  /\ (forall (j : nat) d o, tr !! j = Some (d, o) ->
        d = server.Duration_mul server.tempErrDelay (i + Z.of_nat j))
  /\ (forall (j : nat) d o, tr !! j = Some (d, o) -> (S j < length tr)%nat ->
        o = transient)
  /\ snd <$> last tr = Some err
  /\ ((length tr < remaining)%nat -> err <> transient)
  /\ Write_n Write msg (length tr) conn = (snd <$> tr, conn').

(** A connection that refuses the first two writes with a temporary
    error and accepts the third; its state counts the writes. *)
Definition flaky_Write (n : nat) (_ : list byte) : option server.conn_error * nat :=
  (if (n <? 2)%nat then transient else None, S n).

(** The frame laid out field by field (section 6 of the specification):
    header, total length, path, method, metadata, then the four bytes
    [declared] of the payload-length field and the payload. *)
Definition frame_with (h : protocol.Header) (sp sm : string)
    (meta declared payload : list byte) : list byte :=
  let spb := Go.StringToSliceByte sp in
  let smb := Go.StringToSliceByte sm in
  let totalL := ((4 + String.length sp) + (4 + String.length sm)
                 + (4 + length meta) + (4 + length payload))%nat in
  protocol.Header_bytes h
    ++ Go.PutUint32 (Go.wrap32 (Z.of_nat totalL))
    ++ Go.PutUint32 (Go.wrap32 (Z.of_nat (String.length sp))) ++ spb
    ++ Go.PutUint32 (Go.wrap32 (Z.of_nat (String.length sm))) ++ smb
    ++ Go.PutUint32 (Go.wrap32 (Go.len meta)) ++ meta
    ++ declared ++ payload.

Definition frame (h : protocol.Header) (sp sm : string)
    (meta payload : list byte) : list byte :=
  frame_with h sp sm meta (Go.PutUint32 (Go.wrap32 (Go.len payload))) payload.

(** The bytes one metadata pair takes on the wire. *)
Definition encode_pair (kv : string * string) : list byte :=
  protocol.encodeMetadata_step [] kv.

(** The map that receives the pairs of [iter] one after the other, as the
    loop of [decodeMetadata] builds it. *)
Definition insert_all (iter : list (string * string)) (m : gmap string string)
    : gmap string string :=
  foldl (fun m kv => <[kv.1 := kv.2]> m) m iter.

(** The metadata of a message decoded from a frame that carries the
    pairs [iter]: an empty metadata section leaves the field of the
    receiving message [m0] as it is. *)
Definition decoded_metadata (iter : list (string * string)) (m0 : protocol.Message)
    : gmap string string :=
  match iter with
  | [] => protocol.Metadata m0
  | _ => insert_all iter ∅
  end.

(** The body of a frame: what the total-length field counts. *)
Definition body_with (sp sm : string) (meta declared payload : list byte) : list byte :=
  Go.PutUint32 (Go.wrap32 (Z.of_nat (String.length sp))) ++ Go.StringToSliceByte sp
    ++ Go.PutUint32 (Go.wrap32 (Z.of_nat (String.length sm))) ++ Go.StringToSliceByte sm
    ++ Go.PutUint32 (Go.wrap32 (Go.len meta)) ++ meta
    ++ declared ++ payload.

(** The length [Encode] writes into the total-length field, before the
    conversion to [uint32]. *)
Definition totalLength (sp sm : string) (meta payload : list byte) : Z :=
  Z.of_nat ((4 + String.length sp) + (4 + String.length sm)
            + (4 + length meta) + (4 + length payload)).

(** The fields of a message a caller can see (all but the private buffer). *)
Definition public (m : protocol.Message)
    : protocol.Header * string * string * gmap string string * list byte :=
  (protocol.MessageHeader m, protocol.ServicePath m, protocol.ServiceMethod m,
   protocol.Metadata m, protocol.Payload m).

(** Why the compression step of a message fails, if it does: no
    compressor is registered for the code of the header, or the registered
    one returns an error. *)
Definition compress_failure (cs : protocol.Registry) (m : protocol.Message)
    : option protocol.error :=
  match cs (protocol.CompressTypeOf (protocol.MessageHeader m)) with
  | None => Some protocol.ErrUnsupportedCompressor
  | Some compressor =>
      match protocol.Zip compressor (protocol.Payload m) with
      | inl _ => None
      | inr e => Some e
      end
  end.

(** A writer that appends to a buffer and never fails. *)
Definition buffer_Write (w : list byte) (b : list byte)
    : Z * option protocol.error * list byte :=
  (Go.len b, None, w ++ b).

(** A message that asks for gzip. *)
Definition gzip_message : protocol.Message :=
  protocol.mkMessage
    (protocol.SetCompressType (protocol.MessageHeader protocol.NewRpcMessage)
                              protocol.Gzip)
    "Echo" "Call" {["k" := "v"]} [x01; x02] Go.nilSlice.

(** The message of the example in section 8 of the specification. *)
Definition echo_message : protocol.Message :=
  protocol.mkMessage (protocol.MessageHeader protocol.NewRpcMessage)
    "Echo" "Call" {["k" := "v"]} [x01; x02] Go.nilSlice.

(** A compressor for the examples: [Zip] puts a marker byte in front,
    [Unzip] takes it off and rejects anything that does not start with
    it. *)
Definition marker_compressor : protocol.Compressor :=
  protocol.mkCompressor
    (fun p => inl (x1f :: p))
    (fun z => match z with
              | x1f :: p => inl p
              | _ => inr (protocol.ErrExternal "bad marker")
              end).

(** A registry that knows the code [Gzip] only. *)
Definition example_registry : protocol.Registry :=
  fun ct => if Byte.eqb ct protocol.Gzip then Some marker_compressor else None.

(** A payload of 2^32 - 16 bytes, and a message that carries it. *)
Definition huge_payload : list byte := replicate (N.to_nat 4294967280) x00.

Definition huge_message : protocol.Message :=
  protocol.mkMessage (protocol.MessageHeader protocol.NewRpcMessage)
    EmptyString EmptyString ∅ huge_payload Go.nilSlice.

(** A frame whose metadata section is declared two bytes long and is the
    end of the body. *)
Definition short_metadata_frame : list byte :=
  protocol.Header_bytes (protocol.MessageHeader protocol.NewRpcMessage)
    ++ Go.PutUint32 14
    ++ Go.PutUint32 0 ++ Go.PutUint32 0 ++ Go.PutUint32 2 ++ [x00; x00].

(** A message that has been used before: it still carries metadata and
    a body buffer. *)
Definition stale_message : protocol.Message :=
  protocol.mkMessage (protocol.MessageHeader protocol.NewRpcMessage)
    "Old" "Path" {["old" := "x"]} [xaa] (Go.mkSlice [xaa; xbb] [xcc]).

(** The message of the example, without metadata. *)
Definition bare_message : protocol.Message :=
  protocol.mkMessage (protocol.MessageHeader protocol.NewRpcMessage)
    "Echo" "Call" ∅ [x01; x02] Go.nilSlice.

(** The effects of a handler, in order; those before its first call of
    [Next]; those after that call (none if it never calls [Next]). *)
Fixpoint emits (acts : list server.action) : list nat :=
  match acts with
  | [] => []
  | server.Emit t :: acts => t :: emits acts
  | server.CallNext :: acts => emits acts
  end.

Fixpoint before_next (acts : list server.action) : list nat :=
  match acts with
  | [] => []
  | server.Emit t :: acts => t :: before_next acts
  | server.CallNext :: _ => []
  end.

Fixpoint after_next (acts : list server.action) : list nat :=
  match acts with
  | [] => []
  | server.Emit _ :: acts => after_next acts
  | server.CallNext :: acts => emits acts
  end.

Fixpoint calls_next (acts : list server.action) : bool :=
  match acts with
  | [] => false
  | server.Emit _ :: acts => calls_next acts
  | server.CallNext :: _ => true
  end.

(** The effects of a chain of handlers run one inside the other: each
    handler's effects before its call of [Next], then the rest of the
    chain, then its effects after the call. *)
Fixpoint chain_log (chain : list (list server.action)) : list nat :=
  match chain with
  | [] => []
  | acts :: chain => before_next acts ++ chain_log chain ++ after_next acts
  end.

(** Three handlers: a logger that wraps the rest, a check that does not
    call [Next], and the route handler. *)
Definition example_body (h : server.HandlerFunc) : list server.action :=
  match h with
  | 1%nat => [server.Emit 10; server.CallNext; server.Emit 11]
  | 2%nat => [server.Emit 20]
  | _ => [server.Emit 30]
  end.

(** A parent context that knows one key. *)
Definition example_derived_Value (id : nat) (k : server.key) : option string :=
  match k with
  | server.StringKey "trace" => Some "t-1"
  | _ => None
  end.

(** * Properties *)

(** ** Bytes and big-endian words *)

Section Bytes.
Import Go.

Lemma all_bytes_complete (b : byte) : existsb (Byte.eqb b) all_bytes = true.
Proof. destruct b; vm_compute; reflexivity. Qed.

(** A boolean property checked on the 256 bytes holds of every byte. *)
Lemma byte_forallb (P : byte -> bool) :
  forallb P all_bytes = true -> forall b, P b = true.
Proof.
  intros HP b.
  pose proof (all_bytes_complete b) as Hb.
  apply existsb_exists in Hb as (b' & Hin & Heq).
  apply Byte.byte_dec_bl in Heq. subst b'.
  rewrite forallb_forall in HP. now apply HP.
Qed.

Lemma Z_of_byte_range (b : byte) : 0 <= Z_of_byte b < 256.
Proof.
  unfold Z_of_byte. pose proof (Byte.to_N_bounded b). lia.
Qed.

Lemma Z_of_byte_of_Z (z : Z) : Z_of_byte (byte_of_Z z) = z mod 256.
Proof.
  unfold Z_of_byte, byte_of_Z.
  assert (Hr : 0 <= z mod 256 < 256) by (apply Z.mod_pos_bound; lia).
  destruct (Byte.of_N (Z.to_N (z mod 256))) as [b|] eqn:E.
  - apply Byte.to_of_N in E. rewrite E. lia.
  - apply Byte.of_N_None_iff in E. lia.
Qed.

Lemma byte_of_Z_of_byte (b : byte) : byte_of_Z (Z_of_byte b) = b.
Proof.
  unfold byte_of_Z. rewrite Z.mod_small by apply Z_of_byte_range.
  unfold Z_of_byte. rewrite N2Z.id, Byte.of_to_N. reflexivity.
Qed.
End Bytes.

(** ** Header flags *)

Section HeaderFlags.
Import Go protocol.

Lemma h2_set_h2 h b : h2 (set_h2 h b) = b.
Proof. reflexivity. Qed.

(** The message-type bit survives any [SetMessageType]. *)
Lemma bit7_sticky (b mt : byte) :
  bshr (band b x80) 7 = Response ->
  bshr (band (bor b (bshl mt 7)) x80) 7 = Response.
Proof.
  revert mt.
  assert (H : forall mt, (fun mt =>
            implb (Byte.eqb (bshr (band b x80) 7) Response)
                  (Byte.eqb (bshr (band (bor b (bshl mt 7)) x80) 7) Response)) mt = true).
  { apply byte_forallb. destruct b; vm_compute; reflexivity. }
  intros mt Hb. specialize (H mt). cbv beta in H.
  rewrite Hb in H. simpl in H. now apply Byte.byte_dec_bl.
Qed.

Lemma heartbeat_get_set (b : byte) (hb : bool) :
  Byte.eqb (band (if hb then bor b x40 else bandnot b x40) x40) x40 = hb.
Proof. destruct hb; destruct b; vm_compute; reflexivity. Qed.

Lemma oneway_get_set (b : byte) (ow : bool) :
  Byte.eqb (band (if ow then bor b x20 else bandnot b x20) x20) x20 = ow.
Proof. destruct ow; destruct b; vm_compute; reflexivity. Qed.

Lemma compress_get_set (b ct : byte) :
  bshr (band (bor (bandnot b x1c) (band (bshl ct 2) x1c)) x1c) 2 = band ct x07.
Proof.
  revert ct.
  assert (H : forall ct, (fun ct =>
            Byte.eqb (bshr (band (bor (bandnot b x1c) (band (bshl ct 2) x1c)) x1c) 2)
                     (band ct x07)) ct = true).
  { apply byte_forallb. destruct b; vm_compute; reflexivity. }
  intros ct. now apply Byte.byte_dec_bl, H.
Qed.

Lemma status_get_set (b st : byte) :
  band (bor (bandnot b x03) (band st x03)) x03 = band st x03.
Proof.
  revert st.
  assert (H : forall st, (fun st =>
            Byte.eqb (band (bor (bandnot b x03) (band st x03)) x03)
                     (band st x03)) st = true).
  { apply byte_forallb. destruct b; vm_compute; reflexivity. }
  intros st. now apply Byte.byte_dec_bl, H.
Qed.

Lemma CompressTypeOf_SetCompressType h ct :
  CompressTypeOf (SetCompressType h ct) = band ct x07.
Proof. unfold CompressTypeOf, SetCompressType. rewrite h2_set_h2. apply compress_get_set. Qed.

Lemma CompressTypeOf_cleared h :
  CompressTypeOf (SetCompressType h CompressNone) = CompressNone.
Proof. rewrite CompressTypeOf_SetCompressType. reflexivity. Qed.

(** C10: [SetMessageType] only ORs into bit 7.  On a header whose
    message type is already [Response], setting any type, [Request]
    included, leaves the type [Response], so reading back what was set
    fails for [Request]; the heartbeat, oneway, compression and status
    setters mask first and do read back what was set (the compression
    code on its 3 bits, the status on its 2 bits). *)
Theorem SetMessageType_never_clears (h : Header) :
  MessageType h = Response ->
  (forall mt, MessageType (SetMessageType h mt) = Response)
  /\ MessageType (SetMessageType h Request) <> Request
  /\ h2 (SetMessageType h Request) = h2 h
  /\ (forall hb, IsHeartbeat (SetHeartbeat h hb) = hb)
  /\ (forall ow, IsOneway (SetOneway h ow) = ow)
  /\ (forall ct, CompressTypeOf (SetCompressType h ct) = band ct x07)
  /\ (forall st, MessageStatusType (SetMessageStatusType h st) = band st x03).
Proof.
  intros Hresp.
  assert (Hall : forall mt, MessageType (SetMessageType h mt) = Response).
  { intros mt. unfold MessageType, SetMessageType in *. rewrite h2_set_h2.
    now apply bit7_sticky. }
  repeat split.
  - exact Hall.
  - rewrite Hall. discriminate.
  - unfold SetMessageType. rewrite h2_set_h2.
    destruct (h2 h); vm_compute; reflexivity.
  - intros hb. unfold IsHeartbeat, SetHeartbeat.
    rewrite <- (heartbeat_get_set (h2 h) hb) at 2. now destruct hb.
  - intros ow. unfold IsOneway, SetOneway.
    rewrite <- (oneway_get_set (h2 h) ow) at 2. now destruct ow.
  - apply CompressTypeOf_SetCompressType.
  - intros st. unfold MessageStatusType, SetMessageStatusType.
    rewrite h2_set_h2. apply status_get_set.
Qed.

Lemma SetMessageType_never_clears_witness :
  let h := SetMessageType (MessageHeader NewRpcMessage) Response in
  MessageType h = Response
  /\ MessageType (SetMessageType h Request) = Response.
Proof.
  intros h.
  assert (Hresp : MessageType h = Response) by reflexivity.
  split; [exact Hresp |].
  exact (proj1 (SetMessageType_never_clears h Hresp) Request).
Defined.
End HeaderFlags.

(** ** Sessions *)

Section SessionClose.
Import Go server.

Lemma Close_open i q p a :
  Close (mkBaseSession i ChanOpen (mkOnce false) q p a)
  = Returns (mkBaseSession i ChanClosed (mkOnce true) q p a, true).
Proof. reflexivity. Qed.

Lemma Close_closed i q p a :
  Close (mkBaseSession i ChanClosed (mkOnce true) q p a)
  = Returns (mkBaseSession i ChanClosed (mkOnce true) q p a, false).
Proof. reflexivity. Qed.

Lemma Close_all_closed {Caller} (callers : list Caller) i q p a :
  Close_all callers (mkBaseSession i ChanClosed (mkOnce true) q p a)
  = Returns (mkBaseSession i ChanClosed (mkOnce true) q p a,
             map (fun c => (c, false)) callers).
Proof.
  induction callers as [|c callers IH]; [reflexivity |].
  cbn [Close_all]. rewrite Close_closed. cbn [bind fst snd].
  rewrite IH. reflexivity.
Qed.

(** C6: on a session that has not been closed, any number of calls of
    [Close], by any callers and in whatever order [sync.Once] admits
    them, all return without panic; the first call closes the channel
    [closed], every later call changes nothing, so the signal is fired
    exactly once.  ([sync.Once] serialises concurrent calls of [Do], so
    a concurrent execution is one of these orders.) *)
Theorem Close_fires_once {Caller} (first : Caller) (others : list Caller) i q p a :
  Close_all (first :: others) (mkBaseSession i ChanOpen (mkOnce false) q p a)
  = Returns (mkBaseSession i ChanClosed (mkOnce true) q p a,
             (first, true) :: map (fun c => (c, false)) others).
Proof.
  cbn [Close_all]. rewrite Close_open. cbn [bind fst snd].
  rewrite Close_all_closed. reflexivity.
Qed.
End SessionClose.

Section ContextPool.
Import Go server.

(** What [AllocateContext] does to a pooled context, field by field:
    five fields are cleared, the session is attached, and the handler
    chain, its cursor, the route parameters, method, path and engine are
    those of the previous request. *)
Lemma AllocateContext_fields self i cl o q a (c : routeContext) (pool : Pool) :
  AllocateContext self (mkBaseSession i cl o q (c :: pool) a)
  = (mkRouteContext Background (Params c) None (Method c) (Path c)
                    (handlers c) (index c) None None (Some self) (engine c),
     mkBaseSession i cl o q pool a).
Proof. reflexivity. Qed.

(** C8 (the code departs from the claim): a context that comes back from
    the pool after a request still carries that request's handler list
    and cursor when [AllocateContext] returns it; only the request, the
    response, the store and the cancellation scope are cleared. *)
Theorem AllocateContext_stale_chain :
  let s := mkBaseSession "s" ChanOpen (mkOnce false) [] [used_context] false in
  let c := (AllocateContext 5%nat s).1 in
  handlers c = [1%nat; 2%nat; 3%nat] /\ index c = 3
  /\ handlers c <> handlers NewContext /\ index c <> index NewContext
  /\ reqMsg c = None /\ rspMsg c = None /\ storage c = None
  /\ rawCtx c = Background /\ session c = Some 5%nat.
Proof. cbn. repeat split; discriminate. Qed.
End ContextPool.

Section RetryingWrite.
Import Go server.
Context {C : Type}.
Variable Write : C -> list byte -> option conn_error * C.
Variable msg : list byte.
Variable attemptTimes : Z.

Lemma attempts_ok_break remaining i conn conn' (o : option conn_error) :
  Write conn msg = (o, conn') ->
  (o <> transient \/ remaining = 0%nat) ->
  attempts_ok Write msg (S remaining) i conn
              (o, [(Duration_mul tempErrDelay i, o)], conn').
Proof.
  intros HW Hstop. unfold attempts_ok. cbn [length].
  split; [lia |]. split; [| split; [| split; [| split]]].
  - intros [|j] d o' Hj; cbn in Hj; [| discriminate].
    injection Hj as <- <-. f_equal. lia.
  - intros j d o' _ Hlt. lia.
  - reflexivity.
  - intros Hlt. destruct Hstop as [Hne | ->]; [exact Hne | lia].
  - cbn. rewrite HW. reflexivity.
Qed.

Lemma attemptConnWrite_loop_ok (remaining : nat) :
  forall i conn err0,
    Z.of_nat (S remaining) = attemptTimes - i ->
    attempts_ok Write msg (S remaining) i conn
      (attemptConnWrite_loop Write (S remaining) i attemptTimes msg conn err0).
Proof.
  induction remaining as [|remaining IH]; intros i conn err0 Hrem.
  - (* last attempt: [i = attemptTimes - 1] *)
    cbn [attemptConnWrite_loop].
    destruct (Write conn msg) as [o conn'] eqn:HW.
    assert (Hi : (i =? attemptTimes - 1) = true) by (apply Z.eqb_eq; lia).
    rewrite Hi.
    destruct o as [e|]; apply attempts_ok_break; auto.
  - remember (S remaining) as r eqn:Hr.
    cbn [attemptConnWrite_loop].
    destruct (Write conn msg) as [o conn'] eqn:HW.
    assert (Hi : (i =? attemptTimes - 1) = false) by (apply Z.eqb_neq; lia).
    rewrite Hi.
    destruct o as [[[] []|]|];
      try (apply attempts_ok_break; [exact HW | left; unfold transient; congruence]).
    (* a temporary error that is no timeout: the loop goes on *)
    subst r.
    specialize (IH (i + 1) conn' (Some (NetError false true)) ltac:(lia)).
    destruct (attemptConnWrite_loop Write (S remaining) (i + 1) attemptTimes msg conn'
                (Some (NetError false true))) as [[e tr] conn''].
    unfold attempts_ok in *.
    destruct IH as (Hlen & Hdelay & Hretry & Hlast & Hstop & Hwrites).
    cbn [length]. split; [lia |]. split; [| split; [| split; [| split]]].
    + intros [|j] d o Hj; cbn in Hj.
      * injection Hj as <- <-. f_equal. lia.
      * rewrite (Hdelay j d o Hj). f_equal. lia.
    + intros [|j] d o Hj Hlt; cbn in Hj.
      * injection Hj as <- <-. reflexivity.
      * apply (Hretry j d o Hj). lia.
    + destruct tr as [|a tr]; [cbn in Hlen; lia |]. exact Hlast.
    + intros Hlt. apply Hstop. lia.
    + cbn [Write_n]. rewrite HW, Hwrites. reflexivity.
Qed.

(** C7: with an attempt count [attemptTimes >= 1], [attemptConnWrite]
    makes between one and [attemptTimes] physical writes, one after the
    other on the connection; before write number [j] (from 0) it sleeps
    [tempErrDelay * j] (Go's product on [time.Duration], which is the
    exact product as long as it fits 63 bits), hence nothing before the
    first; every write but the last one made has failed with a temporary
    network error that is no timeout; the error returned is the outcome
    of the last write; and when fewer than [attemptTimes] writes were
    made, the last one succeeded or failed with an error that is a
    timeout, or not temporary, or no network error. *)
Theorem attemptConnWrite_bounded_retries (conn : C) :
  1 <= attemptTimes ->
  let '(err, tr, conn') := attemptConnWrite Write msg attemptTimes conn in
  (1 <= length tr <= Z.to_nat attemptTimes)%nat
  /\ Write_n Write msg (length tr) conn = (snd <$> tr, conn')
  /\ (forall (j : nat) d o, tr !! j = Some (d, o) ->
        d = Duration_mul tempErrDelay (Z.of_nat j)
        /\ (5000000 * attemptTimes < 2 ^ 63 -> d = 5000000 * Z.of_nat j))
  /\ (forall d o, tr !! 0%nat = Some (d, o) -> d = 0)
  /\ (forall (j : nat) d o, tr !! j = Some (d, o) -> (S j < length tr)%nat ->
        o = Some (NetError false true))
  /\ snd <$> last tr = Some err
  /\ ((length tr < Z.to_nat attemptTimes)%nat ->
        err = None
        \/ exists e, err = Some e /\
             (e = OtherError \/ exists timeout temporary,
                 e = NetError timeout temporary
                 /\ (timeout = true \/ temporary = false))).
Proof.
  intros HA. unfold attemptConnWrite.
  destruct (Z.to_nat attemptTimes) as [|remaining] eqn:Hn; [lia |].
  pose proof (attemptConnWrite_loop_ok remaining 0 conn None ltac:(lia)) as H.
  destruct (attemptConnWrite_loop Write (S remaining) 0 attemptTimes msg conn None)
    as [[err tr] conn'].
  destruct H as (Hlen & Hdelay & Hretry & Hlast & Hstop & Hwrites).
  assert (Hd : forall (j : nat) d o, tr !! j = Some (d, o) ->
               d = Duration_mul tempErrDelay (Z.of_nat j)).
  { intros j d o Hj. rewrite (Hdelay j d o Hj). f_equal. }
  split; [exact Hlen |]. split; [exact Hwrites |].
  split; [| split; [| split; [| split]]].
  - intros j d o Hj. split; [eauto |].
    intros Hfit. rewrite (Hd j d o Hj).
    assert (Hj' : (j < length tr)%nat) by (eapply lookup_lt_Some; eauto).
    change tempErrDelay with 5000000.
    unfold Duration_mul, wrap64.
    rewrite Z.mod_small; lia.
  - intros d o Hj. rewrite (Hd 0%nat d o Hj). reflexivity.
  - exact Hretry.
  - exact Hlast.
  - intros Hlt. specialize (Hstop Hlt). unfold transient in Hstop.
    destruct err as [[[] []|]|]; eauto 10; congruence.
Qed.
End RetryingWrite.

Lemma attemptConnWrite_bounded_retries_witness :
  1 <= 5 /\
  let '(err, tr, _) := server.attemptConnWrite flaky_Write [] 5 0%nat in
  (1 <= length tr <= 5)%nat /\ snd <$> last tr = Some err.
Proof.
  split; [lia |].
  pose proof (attemptConnWrite_bounded_retries flaky_Write [] 5 0%nat ltac:(lia)) as H.
  destruct (server.attemptConnWrite flaky_Write [] 5 0%nat) as [[err tr] c].
  destruct H as (Hlen & _ & _ & _ & _ & Hlast & _).
  split; [exact Hlen | exact Hlast].
Defined.

(** ** The wire format *)

Section Wire.
Import Go protocol.

Lemma length_PutUint32 v : length (PutUint32 v) = 4%nat.
Proof. reflexivity. Qed.

Lemma length_StringToSliceByte s : length (StringToSliceByte s) = String.length s.
Proof.
  unfold StringToSliceByte, list_byte_of_string. rewrite length_map.
  induction s as [|a s IH]; cbn; [reflexivity | now rewrite IH].
Qed.

Lemma SliceByteToString_StringToSliceByte s :
  SliceByteToString (StringToSliceByte s) = s.
Proof. apply string_of_list_byte_of_string. Qed.

Lemma length_bufferPool_Get stale l : length (bufferPool_Get stale l) = l.
Proof.
  unfold bufferPool_Get. rewrite length_take, length_app, length_replicate. lia.
Qed.

Lemma testbit_Z_of_byte_high (b : byte) (n : Z) :
  8 <= n -> Z.testbit (Z_of_byte b) n = false.
Proof.
  intros Hn. pose proof (Z_of_byte_range b) as Hb.
  rewrite <- (Z.mod_small (Z_of_byte b) (2 ^ 8)) by (change (2 ^ 8) with 256; lia).
  apply Z.mod_pow2_bits_high. lia.
Qed.

(** Bit [n] of the byte cut out of [v] at offset [k]. *)
Lemma testbit_byte_at (v k n : Z) :
  0 <= k ->
  Z.testbit ((Z.shiftr v k) mod 2 ^ 8) (n - k)
  = (k <=? n) && (n <? k + 8) && Z.testbit v n.
Proof.
  intros Hk.
  destruct (Z.leb_spec k n) as [Hkn | Hkn]; cbn [andb].
  - destruct (Z.ltb_spec n (k + 8)) as [Hn8 | Hn8]; cbn [andb].
    + rewrite Z.mod_pow2_bits_low by lia.
      rewrite Z.shiftr_spec by lia. f_equal. lia.
    + apply Z.mod_pow2_bits_high. lia.
  - apply Z.testbit_neg_r. lia.
Qed.

(** Reading back a big-endian word. *)
Lemma Uint32_PutUint32 (v : Z) (rest : list byte) :
  0 <= v < 2 ^ 32 -> Uint32 (PutUint32 v ++ rest) = Returns v.
Proof.
  intros Hv. unfold PutUint32, Uint32. cbn [app]. f_equal.
  rewrite !Z_of_byte_of_Z. change 256 with (2 ^ 8).
  rewrite <- (Z.shiftr_0_r v) at 1.
  apply Z.bits_inj'. intros n Hn.
  rewrite !Z.lor_spec, !Z.shiftl_spec by lia.
  rewrite <- (Z.sub_0_r n) at 1.
  rewrite !testbit_byte_at by lia.
  assert (Hhigh : 32 <= n -> Z.testbit v n = false).
  { intros H32. rewrite <- (Z.mod_small v (2 ^ 32)) by lia.
    apply Z.mod_pow2_bits_high. lia. }
  destruct (Z.leb_spec 0 n), (Z.ltb_spec n (0 + 8)),
           (Z.leb_spec 8 n), (Z.ltb_spec n (8 + 8)),
           (Z.leb_spec 16 n), (Z.ltb_spec n (16 + 8)),
           (Z.leb_spec 24 n), (Z.ltb_spec n (24 + 8));
    cbn [andb orb]; try lia; rewrite ?orb_false_r; try reflexivity.
  symmetry. apply Hhigh. lia.
Qed.

Lemma wrap32_small v : 0 <= v < 2 ^ 32 -> wrap32 v = v.
Proof. intros Hv. unfold wrap32. now apply Z.mod_small. Qed.

Lemma ReadFull_app (a r : list byte) (n : nat) :
  length a = n -> ReadFull (a ++ r) n = (inl a, r).
Proof.
  intros <-. unfold ReadFull.
  rewrite length_app.
  replace (length a <=? length a + length r)%nat with true
    by (symmetry; apply Nat.leb_le; lia).
  now rewrite take_app_length, drop_app_length.
Qed.

(** One step of filling the buffer [d0] from left to right: [acc] is
    what has been written so far. *)
Lemma copy_to_next (lo k : nat) (hi : option nat) (acc src d0 : list byte) :
  length acc = k -> lo = k ->
  (hi = None \/ hi = Some (lo + length src)%nat) ->
  (lo + length src <= length d0)%nat ->
  copy_to lo hi src (acc ++ drop k d0)
  = Returns ((acc ++ src) ++ drop (lo + length src) d0).
Proof.
  intros Hacc -> Hhi Hfit. subst k. unfold copy_to.
  assert (Hlen : length (acc ++ drop (length acc) d0) = length d0).
  { rewrite length_app, length_drop. lia. }
  rewrite Hlen.
  set (h := default (length d0) hi).
  assert (Hh : (length acc + length src <= h <= length d0)%nat).
  { subst h. destruct Hhi as [-> | ->]; cbn; lia. }
  replace ((length acc <=? h)%nat && (h <=? length d0)%nat)%bool with true
    by (symmetry; apply andb_true_iff; split; apply Nat.leb_le; lia).
  f_equal.
  rewrite take_app_length.
  rewrite (take_ge src) by lia.
  rewrite Nat.min_r by lia.
  rewrite drop_app_add', drop_drop by reflexivity.
  now rewrite <- app_assoc.
Qed.

Lemma PutUint32_to_next (lo hi k : nat) (v : Z) (acc d0 : list byte) :
  length acc = k -> lo = k -> hi = (lo + 4)%nat ->
  (lo + 4 <= length d0)%nat ->
  PutUint32_to lo hi v (acc ++ drop k d0)
  = Returns ((acc ++ PutUint32 v) ++ drop (lo + 4) d0).
Proof.
  intros Hacc Hlo -> Hfit. unfold PutUint32_to.
  replace (4 <=? lo + 4 - lo)%nat with true by (symmetry; apply Nat.leb_le; lia).
  apply copy_to_next; auto.
Qed.

Ltac len_solve :=
  rewrite ?length_app, ?length_PutUint32, ?length_StringToSliceByte,
          ?length_bufferPool_Get;
  cbn [length Header_bytes]; lia.

Ltac fill_step :=
  first
    [ erewrite PutUint32_to_next; [cbn [bind] | len_solve ..]
    | erewrite copy_to_next;
      [cbn [bind]
      | try len_solve;
        first [left; reflexivity | right; f_equal; len_solve] ..] ].

(** [Encode] never panics, and the buffer it fills is the frame of
    section 6, whatever the pooled buffer held before. *)
Lemma Encode_frame cs stale iter m :
  Encode cs stale iter m
  = Returns (frame (Encode_compress cs m).2 (ServicePath m) (ServiceMethod m)
                   (encodeMetadata iter []) (Encode_compress cs m).1,
             with_header m (Encode_compress cs m).2).
Proof.
  unfold Encode, EncodeSlicePointer.
  destruct (Encode_compress cs m) as [payload h]. cbn [fst snd].
  set (meta := encodeMetadata iter []).
  set (l := (12 + 4 + _)%nat).
  set (d0 := bufferPool_Get stale l).
  assert (Hd0 : length d0 = l) by apply length_bufferPool_Get.
  change d0 with ([] ++ drop 0 d0) at 1.
  subst l.
  do 10 fill_step.
  rewrite drop_ge by len_solve. rewrite app_nil_r.
  unfold frame, frame_with, with_header, len. rewrite <- !app_assoc.
  reflexivity.
Qed.
End Wire.

(** ** Decoding the frame header *)

Section DecodeHeader.
Import Go protocol.

Lemma with_header_twice m h h' : with_header (with_header m h) h' = with_header m h'.
Proof. reflexivity. Qed.

(** [Decode] up to the length check: on a stream that starts with a
    header carrying the magic number and a four-byte length field, what
    is left to do is the length check, the read of the body and its
    parsing. *)
Lemma Decode_header L cs m h lenData l r :
  h0 h = magicNumber -> length lenData = 4%nat -> Uint32 lenData = Returns l ->
  Decode L cs m (Header_bytes h ++ lenData ++ r)
  = let m := with_header m h in
    if (L >? 0) && (l >? L) then Returns (Some ErrRpcMessageTooLong, m, r)
    else
      do d <- (if scap (data m) >=? l then reslice (data m) 0 l
               else Returns (make l));
      match ReadFull r (Z.to_nat l) with
      | (inr e, r') =>
          Returns (Some (ErrIO e),
                   with_data m (mkSlice (r ++ drop (length r) (arr d)) (spare d)), r')
      | (inl body, r) =>
          let d := mkSlice body (spare d) in
          do res <- Decode_body cs (with_data m d) d;
          Returns (res.1, res.2, r)
      end.
Proof.
  intros Hmagic Hlen HU.
  destruct h as [b0 b1 b2 b3 b4 b5 b6 b7 b8 b9 b10 b11].
  cbn [h0] in Hmagic. subst b0.
  unfold Decode.
  change (Header_bytes _ ++ lenData ++ r)
    with ([magicNumber] ++ [b1; b2; b3; b4; b5; b6; b7; b8; b9; b10; b11]
                        ++ lenData ++ r).
  rewrite (ReadFull_app [magicNumber]) by reflexivity.
  change (CheckMagicNumber _) with true. cbn [negb].
  rewrite (ReadFull_app [b1; b2; b3; b4; b5; b6; b7; b8; b9; b10; b11])
    by reflexivity.
  rewrite (ReadFull_app lenData) by exact Hlen.
  rewrite HU. cbn [bind].
  reflexivity.
Qed.
End DecodeHeader.

(** ** The metadata codec *)

Section MetadataCodec.
Import Go protocol.

Lemma gtb_false x y : x <= y -> (x >? y) = false.
Proof. intros H. rewrite Z.gtb_ltb. now apply Z.ltb_ge. Qed.

Lemma gtb_true x y : y < x -> (x >? y) = true.
Proof. intros H. rewrite Z.gtb_ltb. now apply Z.ltb_lt. Qed.

(** Cutting the window [mid] out of a slice. *)
Lemma reslice_at (a spare pre mid post : list byte) (lo hi : Z) :
  a = pre ++ mid ++ post -> lo = len pre -> hi = lo + len mid ->
  reslice (mkSlice a spare) lo hi = Returns (mkSlice mid (post ++ spare)).
Proof.
  intros -> -> ->. unfold reslice, scap, len. cbn [arr Go.spare].
  rewrite !length_app.
  replace ((0 <=? Z.of_nat (length pre))
           && (Z.of_nat (length pre) <=? Z.of_nat (length pre) + Z.of_nat (length mid))
           && (Z.of_nat (length pre) + Z.of_nat (length mid)
               <=? Z.of_nat (length pre + (length mid + length post))
                   + Z.of_nat (length spare))) with true
    by (symmetry; rewrite !andb_true_iff; repeat split; apply Z.leb_le; lia).
  f_equal.
  replace (Z.to_nat (Z.of_nat (length pre) + Z.of_nat (length mid) - Z.of_nat (length pre)))
    with (length mid) by lia.
  replace (Z.to_nat (Z.of_nat (length pre) + Z.of_nat (length mid)))
    with (length pre + length mid)%nat by lia.
  rewrite Nat2Z.id.
  rewrite <- !app_assoc.
  rewrite drop_app_length, take_app_length.
  rewrite (app_assoc pre mid), <- (length_app pre mid), drop_app_length.
  reflexivity.
Qed.

Lemma encodeMetadata_step_app bb kv :
  encodeMetadata_step bb kv = bb ++ encode_pair kv.
Proof. reflexivity. Qed.

Lemma encodeMetadata_flat iter bb :
  encodeMetadata iter bb = bb ++ flat_map encode_pair iter.
Proof.
  unfold encodeMetadata.
  assert (H : forall bb, foldl encodeMetadata_step bb iter
                         = bb ++ flat_map encode_pair iter).
  { induction iter as [|kv iter IH]; intros bb'; cbn [foldl flat_map].
    - now rewrite app_nil_r.
    - rewrite IH, encodeMetadata_step_app, <- app_assoc. reflexivity. }
  destruct iter; [now rewrite app_nil_r | apply H].
Qed.

Lemma length_encode_pair kv :
  length (encode_pair kv)
  = (8 + String.length kv.1 + String.length kv.2)%nat.
Proof.
  unfold encode_pair, encodeMetadata_step. cbn [app].
  rewrite !length_app, !length_PutUint32, !length_StringToSliceByte. lia.
Qed.

Lemma length_flat_encode_pair iter :
  (8 * length iter <= length (flat_map encode_pair iter))%nat.
Proof.
  induction iter as [|kv iter IH]; cbn [flat_map length]; [lia |].
  rewrite length_app, length_encode_pair. lia.
Qed.

(** The loop of [decodeMetadata] on the encoding of [todo], with the
    cursor behind what has been decoded ([decoded]): it inserts the pairs
    of [todo] in order and ends without error.  It never looks at the
    spare capacity. *)
Lemma decodeMetadata_loop_encoded (todo : list (string * string)) :
  forall (fuel : nat) (decoded spare : list byte) (l : Z) (m : gmap string string),
    l = len (decoded ++ flat_map encode_pair todo) ->
    l < 2 ^ 32 ->
    (length todo < fuel)%nat ->
    decodeMetadata_loop fuel l
      (mkSlice (decoded ++ flat_map encode_pair todo) spare) (len decoded) m
    = Returns (insert_all todo m, None).
Proof.
  induction todo as [|[k v] todo IH]; intros fuel decoded spare l m Hl Hfit Hfuel.
  - destruct fuel as [|fuel]; [cbn in Hfuel; lia |].
    cbn [decodeMetadata_loop flat_map insert_all foldl].
    rewrite app_nil_r in Hl. rewrite Hl, Z.ltb_irrefl. reflexivity.
  - destruct fuel as [|fuel]; [cbn in Hfuel; lia |].
    cbn [length] in Hfuel.
    cbn [flat_map] in *.
    set (kb := StringToSliceByte k) in *.
    set (vb := StringToSliceByte v) in *.
    set (rest := flat_map encode_pair todo) in *.
    assert (Hpair : encode_pair (k, v)
                    = PutUint32 (wrap32 (len kb)) ++ kb
                      ++ PutUint32 (wrap32 (len vb)) ++ vb) by reflexivity.
    rewrite Hpair in *. clear Hpair.
    unfold len in Hl. rewrite !length_app, !length_PutUint32 in Hl.
    assert (Hkb : wrap32 (len kb) = len kb) by (apply wrap32_small; unfold len; lia).
    assert (Hvb : wrap32 (len vb) = len vb) by (apply wrap32_small; unfold len; lia).
    rewrite Hkb, Hvb.
    set (n0 := len decoded).
    assert (Hn0 : n0 = Z.of_nat (length decoded)) by reflexivity.
    cbn [decodeMetadata_loop].
    replace (n0 <? l) with true by (symmetry; apply Z.ltb_lt; lia).
    rewrite (wrap32_small (n0 + 4)) by lia.
    rewrite (reslice_at _ spare decoded (PutUint32 (len kb))
               (kb ++ PutUint32 (len vb) ++ vb ++ rest) n0 (n0 + 4));
      [| now rewrite <- !app_assoc | reflexivity | reflexivity].
    cbn [bind arr].
    rewrite <- (app_nil_r (PutUint32 (len kb))) at 1.
    rewrite Uint32_PutUint32 by (unfold len; lia). cbn [bind].
    rewrite (wrap32_small (n0 + 4 + len kb)) by (unfold len; lia).
    rewrite (wrap32_small (l - 4)) by lia.
    rewrite gtb_false by (unfold len; lia).
    rewrite (reslice_at _ spare (decoded ++ PutUint32 (len kb)) kb
               (PutUint32 (len vb) ++ vb ++ rest) (n0 + 4) (n0 + 4 + len kb));
      [| now rewrite <- !app_assoc
       | unfold len; rewrite length_app, length_PutUint32; lia | reflexivity].
    cbn [bind arr].
    rewrite (wrap32_small (n0 + 4 + len kb + 4)) by (unfold len; lia).
    rewrite (reslice_at _ spare ((decoded ++ PutUint32 (len kb)) ++ kb)
               (PutUint32 (len vb)) (vb ++ rest)
               (n0 + 4 + len kb) (n0 + 4 + len kb + 4));
      [| now rewrite <- !app_assoc
       | unfold len; rewrite !length_app, length_PutUint32; lia | reflexivity].
    cbn [bind arr].
    rewrite <- (app_nil_r (PutUint32 (len vb))) at 1.
    rewrite Uint32_PutUint32 by (unfold len; lia). cbn [bind].
    rewrite (wrap32_small (n0 + 4 + len kb + 4 + len vb)) by (unfold len; lia).
    rewrite gtb_false by (unfold len; lia).
    rewrite (reslice_at _ spare
               (((decoded ++ PutUint32 (len kb)) ++ kb) ++ PutUint32 (len vb))
               vb rest (n0 + 4 + len kb + 4) (n0 + 4 + len kb + 4 + len vb));
      [| now rewrite <- !app_assoc
       | unfold len; rewrite !length_app, !length_PutUint32; lia | reflexivity].
    cbn [bind arr].
    subst kb vb. rewrite !SliceByteToString_StringToSliceByte.
    specialize (IH fuel
                  (decoded ++ PutUint32 (len (StringToSliceByte k))
                           ++ StringToSliceByte k
                           ++ PutUint32 (len (StringToSliceByte v))
                           ++ StringToSliceByte v)
                  spare l (<[k := v]> m)).
    rewrite <- !app_assoc in IH.
    replace (n0 + 4 + len (StringToSliceByte k) + 4 + len (StringToSliceByte v))
      with (len (decoded ++ PutUint32 (len (StringToSliceByte k))
                         ++ StringToSliceByte k
                         ++ PutUint32 (len (StringToSliceByte v))
                         ++ StringToSliceByte v))
      by (unfold len; rewrite !length_app, !length_PutUint32; lia).
    change (insert_all ((k, v) :: todo) m) with (insert_all todo (<[k := v]> m)).
    rewrite <- !app_assoc.
    apply IH; [| exact Hfit | lia].
    unfold len. rewrite !length_app, !length_PutUint32. lia.
Qed.
End MetadataCodec.

(** ** Decoding a well-formed frame *)

Section DecodeFrame.
Import Go protocol.

Lemma insert_all_lookup (iter : list (string * string)) :
  NoDup iter.*1 ->
  forall (acc : gmap string string) (k : string),
    insert_all iter acc !! k
    = match (list_to_map iter : gmap string string) !! k with
      | Some v => Some v
      | None => acc !! k
      end.
Proof.
  induction iter as [|[k0 v0] iter IH]; intros Hnd acc k.
  - cbn. now rewrite lookup_empty.
  - cbn [fmap list_fmap fst] in Hnd. apply NoDup_cons in Hnd as [Hk0 Hnd].
    change (insert_all ((k0, v0) :: iter) acc)
      with (insert_all iter (<[k0 := v0]> acc)).
    rewrite (IH Hnd). cbn [list_to_map foldr fst snd].
    destruct (decide (k = k0)) as [-> | Hne].
    + rewrite (not_elem_of_list_to_map_1 _ _ Hk0).
      now rewrite !lookup_insert_eq.
    + rewrite !(lookup_insert_ne _ k0 k) by congruence. reflexivity.
Qed.

(** Inserting the pairs of a map, in any order, rebuilds the map. *)
Lemma insert_all_map_to_list (iter : list (string * string)) (m : gmap string string) :
  iter ≡ₚ map_to_list m -> insert_all iter ∅ = m.
Proof.
  intros Hperm.
  assert (Hnd : NoDup iter.*1).
  { rewrite Hperm. apply NoDup_fst_map_to_list. }
  transitivity (list_to_map iter : gmap string string).
  - apply map_eq. intros k. rewrite (insert_all_lookup iter Hnd).
    rewrite lookup_empty. now destruct (list_to_map iter !! k).
  - rewrite (list_to_map_proper _ _ Hnd Hperm). apply list_to_map_to_list.
Qed.

Lemma decoded_metadata_map_to_list iter (m : gmap string string) m0 :
  iter ≡ₚ map_to_list m -> Metadata m0 = ∅ -> decoded_metadata iter m0 = m.
Proof.
  intros Hperm Hm0. destruct iter as [|kv iter].
  - cbn. rewrite Hm0. symmetry. apply map_to_list_empty_iff.
    symmetry. now apply Permutation_nil_l.
  - now apply insert_all_map_to_list.
Qed.

Lemma decodeMetadata_encoded iter spare :
  len (encodeMetadata iter []) < 2 ^ 32 ->
  decodeMetadata (len (encodeMetadata iter [])) (mkSlice (encodeMetadata iter []) spare)
  = Returns (insert_all iter ∅, None).
Proof.
  rewrite encodeMetadata_flat. intros Hfit. unfold decodeMetadata.
  apply (decodeMetadata_loop_encoded iter _ [] spare); [reflexivity | exact Hfit |].
  pose proof (length_flat_encode_pair iter). unfold len. cbn [app]. lia.
Qed.

Lemma Uint32_four (b : list byte) :
  length b = 4%nat -> exists v, Uint32 b = Returns v.
Proof.
  destruct b as [|b0 [|b1 [|b2 [|b3 [|]]]]]; try discriminate.
  intros _. eexists. reflexivity.
Qed.

Lemma length_body_with sp sm meta declared payload :
  length declared = 4%nat ->
  len (body_with sp sm meta declared payload) = totalLength sp sm meta payload.
Proof.
  intros Hd. unfold body_with, totalLength, len.
  rewrite !length_app, !length_PutUint32, !length_StringToSliceByte, Hd. lia.
Qed.

(** The parse of a well-formed body: the fields come out as they went
    in, the payload is everything behind the payload-length field, and
    the four bytes of that field play no part. *)
Lemma Decode_body_frame cs m sp sm iter declared payload spare :
  let meta := encodeMetadata iter [] in
  let body := body_with sp sm meta declared payload in
  length declared = 4%nat ->
  totalLength sp sm meta payload < 2 ^ 32 ->
  Decode_body cs m (mkSlice body spare)
  = Returns (Decode_unzip cs
               (mkMessage (MessageHeader m) sp sm (decoded_metadata iter m) payload
                          (mkSlice body spare))).
Proof.
  intros meta body Hdecl Hfit.
  assert (Hmeta : len meta < 2 ^ 32) by (unfold totalLength, len in *; lia).
  unfold totalLength in Hfit.
  set (spb := StringToSliceByte sp).
  set (smb := StringToSliceByte sm).
  assert (Hspb : length spb = String.length sp) by apply length_StringToSliceByte.
  assert (Hsmb : length smb = String.length sm) by apply length_StringToSliceByte.
  assert (Hbody : body = PutUint32 (len spb) ++ spb ++ PutUint32 (len smb) ++ smb
                         ++ PutUint32 (len meta) ++ meta ++ declared ++ payload).
  { subst body. unfold body_with. fold spb smb. unfold len.
    rewrite Hspb, Hsmb.
    rewrite !wrap32_small by lia. reflexivity. }
  rewrite Hbody. clear Hbody body.
  unfold Decode_body.
  (* servicePath *)
  rewrite (reslice_at _ spare [] (PutUint32 (len spb))
             (spb ++ PutUint32 (len smb) ++ smb ++ PutUint32 (len meta) ++ meta
                  ++ declared ++ payload) 0 4);
    [| reflexivity | reflexivity | reflexivity].
  cbn [bind arr].
  rewrite <- (app_nil_r (PutUint32 (len spb))) at 1.
  rewrite Uint32_PutUint32 by (unfold len; lia). cbn [bind].
  rewrite (reslice_at _ spare (PutUint32 (len spb)) spb
             (PutUint32 (len smb) ++ smb ++ PutUint32 (len meta) ++ meta
                  ++ declared ++ payload) (0 + 4) (0 + 4 + len spb));
    [| reflexivity | reflexivity | reflexivity].
  cbn [bind arr].
  (* serviceMethod *)
  rewrite (reslice_at _ spare (PutUint32 (len spb) ++ spb) (PutUint32 (len smb))
             (smb ++ PutUint32 (len meta) ++ meta ++ declared ++ payload)
             (0 + 4 + len spb) (0 + 4 + len spb + 4));
    [| now rewrite <- !app_assoc
     | unfold len; rewrite length_app, length_PutUint32; lia | reflexivity].
  cbn [bind arr].
  rewrite <- (app_nil_r (PutUint32 (len smb))) at 1.
  rewrite Uint32_PutUint32 by (unfold len; lia). cbn [bind].
  rewrite (reslice_at _ spare ((PutUint32 (len spb) ++ spb) ++ PutUint32 (len smb)) smb
             (PutUint32 (len meta) ++ meta ++ declared ++ payload)
             (0 + 4 + len spb + 4) (0 + 4 + len spb + 4 + len smb));
    [| now rewrite <- !app_assoc
     | unfold len; rewrite !length_app, !length_PutUint32; lia | reflexivity].
  cbn [bind arr].
  (* metadata *)
  rewrite (reslice_at _ spare
             (((PutUint32 (len spb) ++ spb) ++ PutUint32 (len smb)) ++ smb)
             (PutUint32 (len meta)) (meta ++ declared ++ payload)
             (0 + 4 + len spb + 4 + len smb) (0 + 4 + len spb + 4 + len smb + 4));
    [| now rewrite <- !app_assoc
     | unfold len; rewrite !length_app, !length_PutUint32; lia | reflexivity].
  cbn [bind arr].
  rewrite <- (app_nil_r (PutUint32 (len meta))) at 1.
  rewrite Uint32_PutUint32 by (unfold len in *; lia). cbn [bind].
  match goal with
  | |- context [bind (if len meta >? 0 then ?a else ?b) _] =>
      assert (Hmd : (if len meta >? 0 then a else b)
                    = Returns (decoded_metadata iter m, None))
  end.
  { destruct iter as [|kv iter].
    - reflexivity.
    - assert (Hpos : 0 < len meta).
      { subst meta. rewrite encodeMetadata_flat. cbn [app].
        pose proof (length_flat_encode_pair (kv :: iter)) as H8.
        cbn [length] in H8. unfold len. lia. }
      rewrite gtb_true by exact Hpos.
      rewrite (reslice_at _ spare
                 ((((PutUint32 (len spb) ++ spb) ++ PutUint32 (len smb)) ++ smb)
                    ++ PutUint32 (len meta))
                 meta (declared ++ payload)
                 (0 + 4 + len spb + 4 + len smb + 4)
                 (0 + 4 + len spb + 4 + len smb + 4 + len meta));
        [| now rewrite <- !app_assoc
         | unfold len; rewrite !length_app, !length_PutUint32; lia | reflexivity].
      cbn [bind]. subst meta. now rewrite decodeMetadata_encoded. }
  rewrite Hmd. clear Hmd. cbn [bind fst snd].
  (* payload *)
  destruct (Uint32_four declared Hdecl) as [declaredL HdeclL].
  rewrite (reslice_at _ spare
             (((((PutUint32 (len spb) ++ spb) ++ PutUint32 (len smb)) ++ smb)
                 ++ PutUint32 (len meta)) ++ meta)
             declared payload
             (0 + 4 + len spb + 4 + len smb + 4 + len meta)
             (0 + 4 + len spb + 4 + len smb + 4 + len meta + 4));
    [| now rewrite <- !app_assoc
     | unfold len; rewrite !length_app, !length_PutUint32; lia
     | unfold len; rewrite Hdecl; lia].
  cbn [bind arr]. rewrite HdeclL. cbn [bind].
  unfold reslice_from, slen. cbn [arr].
  replace ((0 <=? 0 + 4 + len spb + 4 + len smb + 4 + len meta + 4)
           && (0 + 4 + len spb + 4 + len smb + 4 + len meta + 4 <=? len _)) with true
    by (symmetry; apply andb_true_iff; split; apply Z.leb_le; unfold len;
        rewrite ?length_app, ?length_PutUint32, ?Hdecl; lia).
  rewrite (reslice_at _ spare
             ((((((PutUint32 (len spb) ++ spb) ++ PutUint32 (len smb)) ++ smb)
                 ++ PutUint32 (len meta)) ++ meta) ++ declared)
             payload []);
    [| now rewrite <- !app_assoc, app_nil_r
     | unfold len; rewrite !length_app, !length_PutUint32, Hdecl; lia
     | unfold len; rewrite !length_app, !length_PutUint32, Hdecl; lia].
  cbn [bind arr]. subst spb smb.
  rewrite !SliceByteToString_StringToSliceByte. reflexivity.
Qed.

Lemma frame_with_split h sp sm meta declared payload :
  frame_with h sp sm meta declared payload
  = Header_bytes h ++ PutUint32 (wrap32 (totalLength sp sm meta payload))
      ++ body_with sp sm meta declared payload.
Proof. reflexivity. Qed.

(** [Decode] of a well-formed frame followed by [r]: the frame is
    consumed, [r] is left, and the message is the one of
    [Decode_body_frame] after decompression. *)
Lemma Decode_frame_with L cs m0 h sp sm iter declared payload r :
  let meta := encodeMetadata iter [] in
  h0 h = magicNumber ->
  length declared = 4%nat ->
  totalLength sp sm meta payload < 2 ^ 32 ->
  (L <= 0 \/ totalLength sp sm meta payload <= L) ->
  exists d,
    Decode L cs m0 (frame_with h sp sm meta declared payload ++ r)
    = Returns (let res := Decode_unzip cs
                            (mkMessage h sp sm (decoded_metadata iter m0) payload d) in
               (res.1, res.2, r)).
Proof.
  intros meta Hmagic Hdecl Hfit Hlimit.
  set (l := totalLength sp sm meta payload) in *.
  assert (Hl0 : 0 <= l) by (subst l; unfold totalLength; lia).
  rewrite frame_with_split. fold l. rewrite <- !app_assoc.
  rewrite (Decode_header L cs m0 h _ l);
    [| exact Hmagic | reflexivity
     | rewrite <- (app_nil_r (PutUint32 _)), wrap32_small by lia;
       apply Uint32_PutUint32; lia].
  cbv zeta.
  replace ((L >? 0) && (l >? L)) with false.
  2:{ symmetry. apply andb_false_iff.
      destruct Hlimit; [left | right]; apply gtb_false; lia. }
  assert (Hbuf : exists spare,
             (if scap (data (with_header m0 h)) >=? l
              then reslice (data (with_header m0 h)) 0 l
              else Returns (make l))
             = Returns (mkSlice spare.1 spare.2)).
  { destruct (scap (data (with_header m0 h)) >=? l) eqn:Hcap.
    - unfold reslice. rewrite Z.geb_leb in Hcap. rewrite Hcap.
      replace ((0 <=? 0) && (0 <=? l)) with true
        by (symmetry; apply andb_true_iff; split; apply Z.leb_le; lia).
      cbn [andb]. eexists (_, _). reflexivity.
    - eexists (_, _). reflexivity. }
  destruct Hbuf as [[a0 sp0] Hbuf]. rewrite Hbuf. cbn [bind arr spare fst snd].
  rewrite ReadFull_app
    by (pose proof (length_body_with sp sm meta declared payload Hdecl) as Hb;
        unfold len in Hb; fold l in Hb; lia).
  cbv zeta.
  rewrite (Decode_body_frame cs _ sp sm iter declared payload sp0 Hdecl Hfit).
  cbn [bind]. eexists. reflexivity.
Qed.
End DecodeFrame.

(** ** Properties of the framer *)

Section Framer.
Import Go protocol.

(** C3: with a positive limit [L], a stream that starts with a header
    (magic number in place) and a length field declaring more than [L]
    makes [Decode] return [ErrRpcMessageTooLong]; the 12 bytes of the
    header and the 4 bytes of the length field are consumed, everything
    behind them is still in the stream, and the body buffer of the
    message is untouched. *)
Theorem Decode_rejects_oversized L cs m h lenData l rest :
  0 < L ->
  h0 h = magicNumber ->
  length lenData = 4%nat ->
  Uint32 lenData = Returns l ->
  L < l ->
  Decode L cs m (Header_bytes h ++ lenData ++ rest)
  = Returns (Some ErrRpcMessageTooLong, with_header m h, rest)
  /\ length (Header_bytes h ++ lenData) = 16%nat
  /\ data (with_header m h) = data m.
Proof.
  intros HL Hmagic Hlen HU Hbig.
  split; [| split].
  - rewrite (Decode_header L cs m h lenData l rest Hmagic Hlen HU).
    cbv zeta.
    replace ((L >? 0) && (l >? L)) with true; [reflexivity |].
    symmetry. apply andb_true_iff. split; apply gtb_true; lia.
  - rewrite length_app, Hlen. reflexivity.
  - reflexivity.
Qed.

Lemma Decode_rejects_oversized_witness :
  Decode 10 (fun _ => None) NewRpcMessage
         (Header_bytes (MessageHeader NewRpcMessage) ++ PutUint32 100 ++ [x01; x02])
  = Returns (Some ErrRpcMessageTooLong, NewRpcMessage, [x01; x02]).
Proof.
  apply (Decode_rejects_oversized 10 (fun _ => None) NewRpcMessage
           (MessageHeader NewRpcMessage) (PutUint32 100) 100 [x01; x02]).
  - lia.
  - reflexivity.
  - reflexivity.
  - reflexivity.
  - lia.
Defined.

Lemma Encode_compress_failure cs m e :
  CompressTypeOf (MessageHeader m) <> CompressNone ->
  compress_failure cs m = Some e ->
  Encode_compress cs m
  = (Payload m, SetCompressType (MessageHeader m) CompressNone).
Proof.
  intros Hct Hfail. unfold Encode_compress, compress_failure in *.
  destruct (Byte.eqb (CompressTypeOf (MessageHeader m)) CompressNone) eqn:E.
  { apply Byte.byte_dec_bl in E. contradiction. }
  cbn [negb].
  destruct (cs (CompressTypeOf (MessageHeader m))) as [c|]; [| reflexivity].
  destruct (Zip c (Payload m)); [discriminate | reflexivity].
Qed.

Section WriteToFails.
Context {W : Type}.
Variable Write : W -> list byte -> Z * option error * W.

(** C4: when the header asks for a compression that cannot be done
    (no compressor registered for the code, or the compressor returns
    an error [e]), [Encode] returns normally: the frame it produces
    carries the compression code [CompressNone] and the payload as it
    is, and the header of the message is changed likewise.  [WriteTo]
    on the same message returns an error for every writer; when the
    write of the header went through, the error is
    [ErrUnsupportedCompressor], or the compressor's [e], and nothing
    but the header has been written. *)
Theorem Encode_downgrades_WriteTo_fails cs stale iter m (w : W) e :
  CompressTypeOf (MessageHeader m) <> CompressNone ->
  compress_failure cs m = Some e ->
  let h' := SetCompressType (MessageHeader m) CompressNone in
  Encode cs stale iter m
  = Returns (frame h' (ServicePath m) (ServiceMethod m)
                   (encodeMetadata iter []) (Payload m),
             with_header m h')
  /\ CompressTypeOf h' = CompressNone
  /\ (WriteTo Write cs iter m w).1.2 <> None
  /\ (forall n w1,
        Write w (Header_bytes (MessageHeader m)) = (n, None, w1) ->
        WriteTo Write cs iter m w = (n, Some e, w1)).
Proof.
  intros Hct Hfail h'.
  assert (Hzip : (if negb (Byte.eqb (CompressTypeOf (MessageHeader m)) CompressNone)
                  then match cs (CompressTypeOf (MessageHeader m)) with
                       | None => inr ErrUnsupportedCompressor
                       | Some compressor => Zip compressor (Payload m)
                       end
                  else inl (Payload m)) = inr e).
  { unfold compress_failure in Hfail.
    destruct (Byte.eqb (CompressTypeOf (MessageHeader m)) CompressNone) eqn:E.
    { apply Byte.byte_dec_bl in E. contradiction. }
    cbn [negb].
    destruct (cs (CompressTypeOf (MessageHeader m))) as [c|].
    - destruct (Zip c (Payload m)); congruence.
    - congruence. }
  split; [| split; [| split]].
  - rewrite Encode_frame, (Encode_compress_failure cs m e Hct Hfail).
    reflexivity.
  - apply CompressTypeOf_cleared.
  - unfold WriteTo.
    destruct (Write w (Header_bytes (MessageHeader m))) as [[n [e0|]] w1].
    + discriminate.
    + rewrite Hzip. discriminate.
  - intros n w1 HW. unfold WriteTo. rewrite HW, Hzip. reflexivity.
Qed.
End WriteToFails.

Lemma Encode_downgrades_WriteTo_fails_witness :
  CompressTypeOf (MessageHeader gzip_message) <> CompressNone
  /\ compress_failure (fun _ => None) gzip_message = Some ErrUnsupportedCompressor
  /\ WriteTo buffer_Write (fun _ => None) [("k", "v")] gzip_message []
     = (12, Some ErrUnsupportedCompressor, Header_bytes (MessageHeader gzip_message)).
Proof.
  assert (H1 : CompressTypeOf (MessageHeader gzip_message) <> CompressNone)
    by (vm_compute; discriminate).
  assert (H2 : compress_failure (fun _ => None) gzip_message
               = Some ErrUnsupportedCompressor) by reflexivity.
  split; [exact H1 |]. split; [exact H2 |].
  pose proof (Encode_downgrades_WriteTo_fails buffer_Write (fun _ => None) []
                [("k", "v")] gzip_message [] ErrUnsupportedCompressor H1 H2) as H.
  cbv zeta in H. destruct H as (_ & _ & _ & H).
  apply H. reflexivity.
Defined.

(** C5 (as amended): the message with path "Echo", method "Call",
    metadata {"k": "v"}, payload [01 02] and no compression is encoded
    as a frame of 52 bytes whose total-length field (bytes 12 to 15)
    holds (4+4)+(4+4)+(4+(4+1+4+1))+(4+2) = 36, and reading that frame
    back gives a message with the same header, path, method, metadata
    and payload, leaving nothing in the stream.  (A map with one entry
    has one iteration order.) *)
Theorem Echo_example (cs : Registry) (stale : list byte) :
  map_to_list (Metadata echo_message) = [("k", "v")]
  /\ totalLength "Echo" "Call" (encodeMetadata [("k", "v")] []) [x01; x02] = 36
  /\ exists bytes m',
       Encode cs stale [("k", "v")] echo_message = Returns (bytes, echo_message)
       /\ length bytes = 52%nat
       /\ Uint32 (take 4 (drop 12 bytes)) = Returns 36
       /\ Read 0 cs bytes = Returns (inl m', [])
       /\ public m' = public echo_message.
Proof.
  split; [apply map_to_list_singleton |].
  split; [reflexivity |].
  rewrite Encode_frame.
  assert (Hc : Encode_compress cs echo_message
               = (Payload echo_message, MessageHeader echo_message))
    by (vm_compute; reflexivity).
  rewrite Hc. cbn [fst snd].
  eexists _, _. split; [reflexivity |].
  split; [vm_compute; reflexivity |].
  split; [vm_compute; reflexivity |].
  split; [vm_compute; reflexivity |].
  vm_compute. reflexivity.
Qed.

(** C5 as stated fails: the total-length field of the frame of the
    example does not hold 34. *)
Lemma Echo_example_total_length_not_34 :
  exists bytes m1,
    Encode (fun _ => None) [] [("k", "v")] echo_message = Returns (bytes, m1)
    /\ Uint32 (take 4 (drop 12 bytes)) = Returns 36
    /\ Uint32 (take 4 (drop 12 bytes)) <> Returns 34.
Proof.
  eexists _, _. split; [vm_compute; reflexivity |].
  split; [vm_compute; reflexivity | vm_compute; discriminate].
Qed.
Lemma Decode_unzip_public cs h sp sm md p d d' :
  (Decode_unzip cs (mkMessage h sp sm md p d)).1
  = (Decode_unzip cs (mkMessage h sp sm md p d')).1
  /\ public (Decode_unzip cs (mkMessage h sp sm md p d)).2
     = public (Decode_unzip cs (mkMessage h sp sm md p d')).2.
Proof.
  unfold Decode_unzip. cbn [MessageHeader Payload ServicePath ServiceMethod
                            Metadata data].
  destruct (negb (Byte.eqb (CompressTypeOf h) CompressNone)); [| now split].
  destruct (cs (CompressTypeOf h)) as [c|]; [| now split].
  destruct (Unzip c p); now split.
Qed.

(** C9: in a well-formed frame the four bytes of the payload-length
    field can be anything: [Decode] takes as payload all the bytes
    behind that field up to the end of the body, and its error, the
    visible fields of the message and the rest of the stream are given
    by an expression in which those four bytes do not occur.  Without
    compression the frame is accepted and the payload is that
    remainder. *)
Theorem Decode_ignores_declared_payload_length
    L cs m0 h sp sm iter declared payload r :
  h0 h = magicNumber ->
  length declared = 4%nat ->
  totalLength sp sm (encodeMetadata iter []) payload < 2 ^ 32 ->
  (L <= 0 \/ totalLength sp sm (encodeMetadata iter []) payload <= L) ->
  let fin := Decode_unzip cs (mkMessage h sp sm (decoded_metadata iter m0)
                                        payload nilSlice) in
  exists m',
    Decode L cs m0 (frame_with h sp sm (encodeMetadata iter []) declared payload ++ r)
    = Returns (fin.1, m', r)
    /\ public m' = public fin.2
    /\ (CompressTypeOf h = CompressNone -> fin.1 = None /\ Payload m' = payload).
Proof.
  intros Hmagic Hdecl Hfit Hlimit fin.
  destruct (Decode_frame_with L cs m0 h sp sm iter declared payload r
              Hmagic Hdecl Hfit Hlimit) as [d Hd].
  cbv zeta in Hd.
  destruct (Decode_unzip_public cs h sp sm (decoded_metadata iter m0) payload d
              nilSlice) as [He Hp].
  eexists. split; [rewrite Hd; subst fin; rewrite He; reflexivity |].
  split; [exact Hp |].
  intros Hnone. subst fin. unfold Decode_unzip.
  cbn [MessageHeader]. rewrite Hnone. cbn. split; reflexivity.
Qed.

Lemma Decode_ignores_declared_payload_length_witness :
  exists m',
    Decode 0 (fun _ => None) NewRpcMessage
      (frame_with (MessageHeader NewRpcMessage) "Echo" "Call"
                  (encodeMetadata [("k", "v")] []) (PutUint32 999) [x01; x02] ++ [])
    = Returns (None, m', [])
    /\ Payload m' = [x01; x02].
Proof.
  destruct (Decode_ignores_declared_payload_length 0 (fun _ => None) NewRpcMessage
              (MessageHeader NewRpcMessage) "Echo" "Call" [("k", "v")]
              (PutUint32 999) [x01; x02] []) as (m' & HD & _ & Hnone).
  - reflexivity.
  - reflexivity.
  - vm_compute. reflexivity.
  - left. lia.
  - exists m'. split.
    + exact HD.
    + apply Hnone. reflexivity.
Defined.

Lemma h0_SetCompressType h ct : h0 (SetCompressType h ct) = h0 h.
Proof. reflexivity. Qed.

(** What the two halves of the compression step do to each other: the
    payload [Encode] puts on the wire under the header it leaves is
    turned back into the payload of the message by [Decode]. *)
Lemma Decode_unzip_Encode_compress cs m sp sm md d :
  (forall c z, cs (CompressTypeOf (MessageHeader m)) = Some c ->
               Zip c (Payload m) = inl z -> Unzip c z = inl (Payload m)) ->
  Decode_unzip cs (mkMessage (Encode_compress cs m).2 sp sm md
                             (Encode_compress cs m).1 d)
  = (None, mkMessage (Encode_compress cs m).2 sp sm md (Payload m) d).
Proof.
  intros Hlaw. unfold Encode_compress, Decode_unzip.
  destruct (Byte.eqb (CompressTypeOf (MessageHeader m)) CompressNone) eqn:E;
    cbn [negb fst snd MessageHeader Payload].
  - rewrite E. reflexivity.
  - destruct (cs (CompressTypeOf (MessageHeader m))) as [c|] eqn:Ec;
      cbn [fst snd].
    + destruct (Zip c (Payload m)) as [z|e] eqn:Ez; cbn [fst snd].
      * rewrite E. cbn [negb]. rewrite Ec, (Hlaw c z eq_refl Ez). reflexivity.
      * rewrite CompressTypeOf_cleared. reflexivity.
    + rewrite CompressTypeOf_cleared. reflexivity.
Qed.

Lemma h0_Encode_compress cs m :
  h0 (Encode_compress cs m).2 = h0 (MessageHeader m).
Proof.
  unfold Encode_compress.
  destruct (negb _); [| reflexivity].
  destruct (cs _) as [c|]; [| reflexivity].
  destruct (Zip c _); reflexivity.
Qed.

(** C1 (as amended): take a message whose header carries the magic
    number, any path, method, metadata and payload, any compression code
    and any registry whose compressor for that code, if there is one,
    undoes with [Unzip] what [Zip] did to this payload.  If the total
    length [Encode] computes fits the 32-bit length field and passes the
    limit [L] of the reader (no limit when [L <= 0]), then [Encode]
    returns a frame, whatever the iteration order of the metadata and
    the contents of the pooled buffer, and [Read] of that frame returns a
    message with the same path, method, metadata and payload, and
    consumes the frame exactly. *)
Theorem Encode_Read_roundtrip L cs stale iter m rest :
  h0 (MessageHeader m) = magicNumber ->
  iter ≡ₚ map_to_list (Metadata m) ->
  (forall c z, cs (CompressTypeOf (MessageHeader m)) = Some c ->
               Zip c (Payload m) = inl z -> Unzip c z = inl (Payload m)) ->
  totalLength (ServicePath m) (ServiceMethod m) (encodeMetadata iter [])
              (Encode_compress cs m).1 < 2 ^ 32 ->
  (L <= 0 \/ totalLength (ServicePath m) (ServiceMethod m) (encodeMetadata iter [])
                          (Encode_compress cs m).1 <= L) ->
  exists bytes m1 m',
    Encode cs stale iter m = Returns (bytes, m1)
    /\ Read L cs (bytes ++ rest) = Returns (inl m', rest)
    /\ ServicePath m' = ServicePath m
    /\ ServiceMethod m' = ServiceMethod m
    /\ Metadata m' = Metadata m
    /\ Payload m' = Payload m.
Proof.
  intros Hmagic Hperm Hlaw Hfit Hlimit.
  rewrite Encode_frame.
  eexists _, _. unfold frame.
  destruct (Decode_frame_with L cs NewRpcMessage (Encode_compress cs m).2
              (ServicePath m) (ServiceMethod m) iter
              (PutUint32 (wrap32 (len (Encode_compress cs m).1)))
              (Encode_compress cs m).1 rest) as [d Hd];
    [now rewrite h0_Encode_compress | reflexivity | exact Hfit | exact Hlimit |].
  cbv zeta in Hd.
  rewrite Decode_unzip_Encode_compress in Hd by exact Hlaw.
  cbn [fst snd] in Hd.
  eexists. split; [reflexivity |].
  unfold Read. rewrite Hd. cbn [bind fst snd].
  split; [reflexivity |].
  cbn [ServicePath ServiceMethod Metadata Payload].
  repeat split.
  now apply decoded_metadata_map_to_list.
Qed.

Lemma Encode_Read_roundtrip_witness :
  exists bytes m1 m',
    Encode example_registry [xff; xff] [("k", "v")] gzip_message = Returns (bytes, m1)
    /\ Read 0 example_registry (bytes ++ [x07]) = Returns (inl m', [x07])
    /\ ServicePath m' = "Echo"
    /\ ServiceMethod m' = "Call"
    /\ Metadata m' = {["k" := "v"]}
    /\ Payload m' = [x01; x02].
Proof.
  apply (Encode_Read_roundtrip 0 example_registry [xff; xff] [("k", "v")]
           gzip_message [x07]).
  - reflexivity.
  - change (Metadata gzip_message) with ({["k" := "v"]} : gmap string string).
    now rewrite map_to_list_singleton.
  - intros c z Hc Hz.
    assert (Hreg : example_registry (CompressTypeOf (MessageHeader gzip_message))
                   = Some marker_compressor) by (vm_compute; reflexivity).
    rewrite Hreg in Hc. injection Hc as <-.
    cbn in Hz. injection Hz as <-. reflexivity.
  - vm_compute. reflexivity.
  - left. lia.
Defined.

(** A payload of 2^32 - 16 bytes makes the total length 2^32, which the
    length field stores as 0; the reader then takes the body to be empty
    and panics on its first slice expression. *)
Lemma Read_wrapped_total_length cs stale (payload : list byte) :
  Z.of_nat (length payload) = 2 ^ 32 - 16 ->
  exists bytes m1,
    Encode cs stale []
           (mkMessage (MessageHeader NewRpcMessage) EmptyString EmptyString ∅
                      payload nilSlice)
    = Returns (bytes, m1)
    /\ take 4 (drop 12 bytes) = PutUint32 0
    /\ Read 0 cs bytes = Panics.
Proof.
  intros Hlen.
  rewrite Encode_frame.
  set (m := mkMessage _ _ _ _ payload _).
  assert (Hc : Encode_compress cs m = (payload, MessageHeader NewRpcMessage))
    by reflexivity.
  rewrite Hc. cbn [fst snd ServicePath ServiceMethod m].
  eexists _, _. split; [reflexivity |].
  unfold frame. rewrite frame_with_split.
  assert (Hwrap : wrap32 (totalLength EmptyString EmptyString
                                      (encodeMetadata [] []) payload) = 0).
  { unfold totalLength, encodeMetadata. cbn [String.length length].
    replace (Z.of_nat (4 + 0 + (4 + 0) + (4 + 0) + (4 + length payload)))
      with (2 ^ 32) by lia.
    reflexivity. }
  rewrite Hwrap.
  split; [reflexivity |].
  unfold Read.
  rewrite (Decode_header 0 cs NewRpcMessage (MessageHeader NewRpcMessage)
             (PutUint32 0) 0); [| reflexivity | reflexivity | reflexivity].
  reflexivity.
Qed.

Lemma length_huge_payload : Z.of_nat (length huge_payload) = 2 ^ 32 - 16.
Proof.
  unfold huge_payload. rewrite length_replicate, N_nat_Z. reflexivity.
Qed.

(** C1 as stated fails: for the message with an empty path, method and
    metadata, no compression and a payload of 2^32 - 16 bytes, [Encode]
    returns a frame whose total-length field is 0, and [Read] of that
    frame (no limit configured) panics instead of returning the
    message. *)
Lemma Encode_Read_roundtrip_fails_at_4GiB :
  exists bytes m1,
    Encode (fun _ => None) [] [] huge_message = Returns (bytes, m1)
    /\ take 4 (drop 12 bytes) = PutUint32 0
    /\ Read 0 (fun _ => None) bytes = Panics.
Proof.
  exact (Read_wrapped_total_length (fun _ => None) [] huge_payload
           length_huge_payload).
Qed.

(** C2 (the code departs from the claim): a metadata section declared
    two bytes long.  [decodeMetadata] reads its first length field from
    four bytes, so it runs past the section: when the section is the end
    of the buffer the slice expression panics, and so does [Read] of a
    frame that ends with such a section; when bytes follow in the
    buffer they are taken for length fields, and the outcome (the error
    [ErrMetaKVMissing], or a panic) depends on them. *)
Theorem decodeMetadata_short_section_overruns :
  decodeMetadata 2 (mkSlice [x00; x00] []) = Panics
  /\ Read 0 (fun _ => None) short_metadata_frame = Panics
  /\ decodeMetadata 2 (mkSlice [x00; x00] [x00; x00; x00; x00; x00; x00])
     = Returns (∅, Some ErrMetaKVMissing)
  /\ decodeMetadata 2 (mkSlice [x00; x00] [x00; x00; xff; xff; xff; xf8])
     = Panics.
Proof.
  repeat split; vm_compute; reflexivity.
Qed.

End Framer.

(** ** The fuel of [decodeMetadata] is enough *)

Section Fuel.
Import Go protocol.

Lemma reslice_Returns s lo hi s' :
  reslice s lo hi = Returns s' -> 0 <= lo <= hi.
Proof.
  unfold reslice.
  destruct (0 <=? lo) eqn:E1; [| discriminate].
  destruct (lo <=? hi) eqn:E2; [| discriminate].
  intros _. apply Z.leb_le in E1, E2. lia.
Qed.

Lemma reslice_fuel s lo hi : reslice s lo hi <> OutOfFuel.
Proof. unfold reslice. destruct (_ && _); discriminate. Qed.

Lemma Uint32_fuel b : Uint32 b <> OutOfFuel.
Proof. destruct b as [|? [|? [|? [|? ?]]]]; discriminate. Qed.

Lemma wrap32_range z : 0 <= wrap32 z < 2 ^ 32.
Proof. unfold wrap32. apply Z.mod_pos_bound. lia. Qed.

Lemma wrap32_add4_ge n : 0 <= n < 2 ^ 32 -> n <= wrap32 (n + 4) -> wrap32 (n + 4) = n + 4.
Proof.
  intros Hn Hle. unfold wrap32 in *.
  destruct (Z_lt_le_dec (n + 4) (2 ^ 32)) as [Hlt | Hge].
  - apply Z.mod_small. lia.
  - exfalso.
    replace (n + 4) with ((n + 4 - 2 ^ 32) + 1 * 2 ^ 32) in Hle by lia.
    rewrite Z.mod_add in Hle by lia.
    rewrite Z.mod_small in Hle by lia. lia.
Qed.

(** Every round of the loop moves the cursor at least four bytes
    forward and keeps it at or below [l]: the loop never runs out of
    the fuel [decodeMetadata] gives it. *)
Lemma decodeMetadata_loop_fuel l data (fuel : nat) :
  forall n m,
    0 <= n < 2 ^ 32 ->
    (Z.to_nat (l - n) < fuel)%nat ->
    decodeMetadata_loop fuel l data n m <> OutOfFuel.
Proof.
  induction fuel as [|fuel IH]; intros n m Hn Hfuel; [lia |].
  cbn [decodeMetadata_loop].
  destruct (Z.ltb_spec n l) as [Hlt | Hge]; [| discriminate].
  destruct (reslice data n (wrap32 (n + 4))) as [s1| |] eqn:R1; cbn [bind];
    [| discriminate | now apply reslice_fuel in R1].
  apply reslice_Returns in R1.
  destruct (Uint32 (arr s1)) as [sl| |] eqn:U1; cbn [bind];
    [| discriminate | now apply Uint32_fuel in U1].
  destruct (wrap32 (wrap32 (n + 4) + sl) >? wrap32 (l - 4)); [discriminate |].
  destruct (reslice data (wrap32 (n + 4)) (wrap32 (wrap32 (n + 4) + sl)))
    as [ks| |] eqn:R2; cbn [bind];
    [| discriminate | now apply reslice_fuel in R2].
  apply reslice_Returns in R2.
  destruct (reslice data (wrap32 (wrap32 (n + 4) + sl))
                    (wrap32 (wrap32 (wrap32 (n + 4) + sl) + 4)))
    as [s2| |] eqn:R3; cbn [bind];
    [| discriminate | now apply reslice_fuel in R3].
  apply reslice_Returns in R3.
  destruct (Uint32 (arr s2)) as [sl2| |] eqn:U2; cbn [bind];
    [| discriminate | now apply Uint32_fuel in U2].
  destruct (Z.gtb_spec (wrap32 (wrap32 (wrap32 (wrap32 (n + 4) + sl) + 4) + sl2)) l)
    as [Hgt | Hle]; [discriminate |].
  destruct (reslice data (wrap32 (wrap32 (wrap32 (n + 4) + sl) + 4))
                    (wrap32 (wrap32 (wrap32 (wrap32 (n + 4) + sl) + 4) + sl2)))
    as [vs| |] eqn:R4; cbn [bind];
    [| discriminate | now apply reslice_fuel in R4].
  apply reslice_Returns in R4.
  pose proof (wrap32_add4_ge n Hn (proj2 R1)) as Hn1.
  apply IH; [apply wrap32_range | lia].
Qed.

Lemma decodeMetadata_terminates l data :
  0 <= l -> decodeMetadata l data <> OutOfFuel.
Proof.
  intros Hl. unfold decodeMetadata.
  apply decodeMetadata_loop_fuel; lia.
Qed.
End Fuel.

(** * Further properties of the protocol *)

(** ** The sequence number, the version and the serialize type *)

Section HeaderFields.
Import Go protocol.

Lemma Uint64_PutUint64 (v : Z) (rest : list byte) :
  0 <= v < 2 ^ 64 -> Uint64 (PutUint64 v ++ rest) = Returns v.
Proof.
  intros Hv. unfold PutUint64, Uint64. cbn [app]. f_equal.
  rewrite !Z_of_byte_of_Z. change 256 with (2 ^ 8).
  rewrite <- (Z.shiftr_0_r v) at 1.
  apply Z.bits_inj'. intros n Hn.
  rewrite !Z.lor_spec, !Z.shiftl_spec by lia.
  rewrite <- (Z.sub_0_r n) at 1.
  rewrite !testbit_byte_at by lia.
  destruct (Z.testbit v n) eqn:Hbit.
  2:{ now rewrite !andb_false_r. }
  rewrite !andb_true_r.
  assert (Hn64 : n < 64).
  { destruct (Z_lt_le_dec n 64) as [H | H]; [exact H | exfalso].
    rewrite <- (Z.mod_small v (2 ^ 64)) in Hbit by lia.
    rewrite Z.mod_pow2_bits_high in Hbit by lia. discriminate. }
  assert (Hcase : n < 8 \/ 8 <= n < 16 \/ 16 <= n < 24 \/ 24 <= n < 32
                  \/ 32 <= n < 40 \/ 40 <= n < 48 \/ 48 <= n < 56 \/ 56 <= n) by lia.
  repeat match goal with
         | |- context [?a <=? ?b] => destruct (Z.leb_spec a b); try lia
         | |- context [?a <? ?b] => destruct (Z.ltb_spec a b); try lia
         end; reflexivity.
Qed.
(** Properties of two bytes checked on the 65536 pairs. *)
Lemma byte2_forallb (P : byte -> byte -> bool) :
  forallb (fun a => forallb (P a) all_bytes) all_bytes = true ->
  forall a b, P a b = true.
Proof.
  intros HP a b.
  pose proof (byte_forallb (fun a => forallb (P a) all_bytes) HP a) as Ha.
  cbv beta in Ha. exact (byte_forallb (P a) Ha b).
Qed.

(** X1: the sequence number read back is the one that was set (a
    [uint64]), and [SetSeq] leaves the first four bytes of the header,
    hence the magic number, the version, every flag and the serialize
    type, as they were. *)
Theorem Seq_SetSeq (h : Header) (seq : Z) :
  Seq (SetSeq h seq) = Returns (seq mod 2 ^ 64)
  /\ take 4 (Header_bytes (SetSeq h seq)) = take 4 (Header_bytes h).
Proof.
  destruct h as [b0 b1 b2 b3 b4 b5 b6 b7 b8 b9 b10 b11].
  split; [| reflexivity].
  unfold Seq, SetSeq.
  change (drop 4 (Header_bytes (Header_overwrite _ _)))
    with (PutUint64 (wrapu64 seq)).
  rewrite <- (app_nil_r (PutUint64 _)).
  apply Uint64_PutUint64. unfold wrapu64. apply Z.mod_pos_bound. lia.
Qed.

(** X2: the version and the serialize type read back what was set, the
    latter on its four bits; [SetSerializeType] keeps the reserved low
    nibble of byte 3, and neither setter touches another byte. *)
Theorem Version_SerializeType_get_set (h : Header) :
  (forall v, Version (SetVersion h v) = v
             /\ SerializeType (SetVersion h v) = SerializeType h
             /\ h2 (SetVersion h v) = h2 h)
  /\ (forall st, SerializeType (SetSerializeType h st) = band st x0f
                 /\ band (h3 (SetSerializeType h st)) x0f = band (h3 h) x0f
                 /\ Version (SetSerializeType h st) = Version h
                 /\ h2 (SetSerializeType h st) = h2 h).
Proof.
  split.
  - intros v. repeat split.
  - intros st.
    assert (H : forall a b,
               (fun a b =>
                  Byte.eqb (bshr (band (bor (bandnot a xf0) (bshl b 4)) xf0) 4)
                           (band b x0f)
                  && Byte.eqb (band (bor (bandnot a xf0) (bshl b 4)) x0f)
                              (band a x0f)) a b = true).
    { apply byte2_forallb. vm_compute. reflexivity. }
    specialize (H (h3 h) st). cbv beta in H.
    apply andb_true_iff in H as [H1 H2].
    apply Byte.byte_dec_bl in H1, H2.
    repeat split; assumption.
Qed.
(** The five flag getters read the flag byte only. *)
Lemma getters_read_h2 (h : Header) :
  MessageType (set_h2 h (h2 h)) = MessageType h
  /\ IsHeartbeat (set_h2 h (h2 h)) = IsHeartbeat h
  /\ IsOneway (set_h2 h (h2 h)) = IsOneway h
  /\ CompressTypeOf (set_h2 h (h2 h)) = CompressTypeOf h
  /\ MessageStatusType (set_h2 h (h2 h)) = MessageStatusType h.
Proof. repeat split. Qed.

(** Each setter changes the bits of its own field only. *)
Lemma SetMessageType_mask b mt :
  bandnot (bor b (bshl mt 7)) x80 = bandnot b x80.
Proof.
  apply Byte.byte_dec_bl.
  apply (byte2_forallb
           (fun b mt => Byte.eqb (bandnot (bor b (bshl mt 7)) x80) (bandnot b x80))).
  vm_compute. reflexivity.
Qed.

Lemma SetHeartbeat_mask b (hb : bool) :
  bandnot (if hb then bor b x40 else bandnot b x40) x40 = bandnot b x40.
Proof. destruct hb; destruct b; vm_compute; reflexivity. Qed.

Lemma SetOneway_mask b (ow : bool) :
  bandnot (if ow then bor b x20 else bandnot b x20) x20 = bandnot b x20.
Proof. destruct ow; destruct b; vm_compute; reflexivity. Qed.

Lemma SetCompressType_mask b ct :
  bandnot (bor (bandnot b x1c) (band (bshl ct 2) x1c)) x1c = bandnot b x1c.
Proof.
  apply Byte.byte_dec_bl.
  apply (byte2_forallb
           (fun b ct => Byte.eqb (bandnot (bor (bandnot b x1c) (band (bshl ct 2) x1c)) x1c)
                                 (bandnot b x1c))).
  vm_compute. reflexivity.
Qed.

Lemma SetMessageStatusType_mask b st :
  bandnot (bor (bandnot b x03) (band st x03)) x03 = bandnot b x03.
Proof.
  apply Byte.byte_dec_bl.
  apply (byte2_forallb
           (fun b st => Byte.eqb (bandnot (bor (bandnot b x03) (band st x03)) x03)
                                 (bandnot b x03))).
  vm_compute. reflexivity.
Qed.

(** Each getter ignores the bits of the other fields. *)
Lemma getters_ignore_x80 h b :
  IsHeartbeat (set_h2 h (bandnot b x80)) = IsHeartbeat (set_h2 h b)
  /\ IsOneway (set_h2 h (bandnot b x80)) = IsOneway (set_h2 h b)
  /\ CompressTypeOf (set_h2 h (bandnot b x80)) = CompressTypeOf (set_h2 h b)
  /\ MessageStatusType (set_h2 h (bandnot b x80)) = MessageStatusType (set_h2 h b).
Proof.
  unfold IsHeartbeat, IsOneway, CompressTypeOf, MessageStatusType.
  rewrite !h2_set_h2. destruct b; vm_compute; repeat split.
Qed.

Lemma getters_ignore_x40 h b :
  MessageType (set_h2 h (bandnot b x40)) = MessageType (set_h2 h b)
  /\ IsOneway (set_h2 h (bandnot b x40)) = IsOneway (set_h2 h b)
  /\ CompressTypeOf (set_h2 h (bandnot b x40)) = CompressTypeOf (set_h2 h b)
  /\ MessageStatusType (set_h2 h (bandnot b x40)) = MessageStatusType (set_h2 h b).
Proof.
  unfold MessageType, IsOneway, CompressTypeOf, MessageStatusType.
  rewrite !h2_set_h2. destruct b; vm_compute; repeat split.
Qed.

Lemma getters_ignore_x20 h b :
  MessageType (set_h2 h (bandnot b x20)) = MessageType (set_h2 h b)
  /\ IsHeartbeat (set_h2 h (bandnot b x20)) = IsHeartbeat (set_h2 h b)
  /\ CompressTypeOf (set_h2 h (bandnot b x20)) = CompressTypeOf (set_h2 h b)
  /\ MessageStatusType (set_h2 h (bandnot b x20)) = MessageStatusType (set_h2 h b).
Proof.
  unfold MessageType, IsHeartbeat, CompressTypeOf, MessageStatusType.
  rewrite !h2_set_h2. destruct b; vm_compute; repeat split.
Qed.

Lemma getters_ignore_x1c h b :
  MessageType (set_h2 h (bandnot b x1c)) = MessageType (set_h2 h b)
  /\ IsHeartbeat (set_h2 h (bandnot b x1c)) = IsHeartbeat (set_h2 h b)
  /\ IsOneway (set_h2 h (bandnot b x1c)) = IsOneway (set_h2 h b)
  /\ MessageStatusType (set_h2 h (bandnot b x1c)) = MessageStatusType (set_h2 h b).
Proof.
  unfold MessageType, IsHeartbeat, IsOneway, MessageStatusType.
  rewrite !h2_set_h2. destruct b; vm_compute; repeat split.
Qed.

Lemma getters_ignore_x03 h b :
  MessageType (set_h2 h (bandnot b x03)) = MessageType (set_h2 h b)
  /\ IsHeartbeat (set_h2 h (bandnot b x03)) = IsHeartbeat (set_h2 h b)
  /\ IsOneway (set_h2 h (bandnot b x03)) = IsOneway (set_h2 h b)
  /\ CompressTypeOf (set_h2 h (bandnot b x03)) = CompressTypeOf (set_h2 h b).
Proof.
  unfold MessageType, IsHeartbeat, IsOneway, CompressTypeOf.
  rewrite !h2_set_h2. destruct b; vm_compute; repeat split.
Qed.

(** X3: the five flag fields share byte 2 of the header without
    interfering: setting the message type, the heartbeat flag, the oneway
    flag, the compression code or the status leaves the four other fields
    as they were. *)
Theorem flag_setters_independent (h : Header) :
  (forall mt, let h' := SetMessageType h mt in
     IsHeartbeat h' = IsHeartbeat h /\ IsOneway h' = IsOneway h
     /\ CompressTypeOf h' = CompressTypeOf h
     /\ MessageStatusType h' = MessageStatusType h)
  /\ (forall hb, let h' := SetHeartbeat h hb in
        MessageType h' = MessageType h /\ IsOneway h' = IsOneway h
        /\ CompressTypeOf h' = CompressTypeOf h
        /\ MessageStatusType h' = MessageStatusType h)
  /\ (forall ow, let h' := SetOneway h ow in
        MessageType h' = MessageType h /\ IsHeartbeat h' = IsHeartbeat h
        /\ CompressTypeOf h' = CompressTypeOf h
        /\ MessageStatusType h' = MessageStatusType h)
  /\ (forall ct, let h' := SetCompressType h ct in
        MessageType h' = MessageType h /\ IsHeartbeat h' = IsHeartbeat h
        /\ IsOneway h' = IsOneway h
        /\ MessageStatusType h' = MessageStatusType h)
  /\ (forall st, let h' := SetMessageStatusType h st in
        MessageType h' = MessageType h /\ IsHeartbeat h' = IsHeartbeat h
        /\ IsOneway h' = IsOneway h
        /\ CompressTypeOf h' = CompressTypeOf h).
Proof.
  destruct (getters_read_h2 h) as (G1 & G2 & G3 & G4 & G5).
  split; [| split; [| split; [| split]]].
  - intros mt h'. subst h'. unfold SetMessageType.
    destruct (getters_ignore_x80 h (bor (h2 h) (bshl mt 7))) as (A & B & C & D).
    destruct (getters_ignore_x80 h (h2 h)) as (A' & B' & C' & D').
    rewrite SetMessageType_mask in A, B, C, D.
    rewrite <- A, <- B, <- C, <- D, A', B', C', D'. auto.
  - intros hb h'. subst h'.
    assert (E : SetHeartbeat h hb
                = set_h2 h (if hb then bor (h2 h) x40 else bandnot (h2 h) x40))
      by (now destruct hb).
    rewrite E.
    destruct (getters_ignore_x40 h (if hb then bor (h2 h) x40 else bandnot (h2 h) x40))
      as (A & B & C & D).
    destruct (getters_ignore_x40 h (h2 h)) as (A' & B' & C' & D').
    rewrite SetHeartbeat_mask in A, B, C, D.
    rewrite <- A, <- B, <- C, <- D, A', B', C', D'. auto.
  - intros ow h'. subst h'.
    assert (E : SetOneway h ow
                = set_h2 h (if ow then bor (h2 h) x20 else bandnot (h2 h) x20))
      by (now destruct ow).
    rewrite E.
    destruct (getters_ignore_x20 h (if ow then bor (h2 h) x20 else bandnot (h2 h) x20))
      as (A & B & C & D).
    destruct (getters_ignore_x20 h (h2 h)) as (A' & B' & C' & D').
    rewrite SetOneway_mask in A, B, C, D.
    rewrite <- A, <- B, <- C, <- D, A', B', C', D'. auto.
  - intros ct h'. subst h'. unfold SetCompressType.
    destruct (getters_ignore_x1c h
                (bor (bandnot (h2 h) x1c) (band (bshl ct 2) x1c))) as (A & B & C & D).
    destruct (getters_ignore_x1c h (h2 h)) as (A' & B' & C' & D').
    rewrite SetCompressType_mask in A, B, C, D.
    rewrite <- A, <- B, <- C, <- D, A', B', C', D'. auto.
  - intros st h'. subst h'. unfold SetMessageStatusType.
    destruct (getters_ignore_x03 h
                (bor (bandnot (h2 h) x03) (band st x03))) as (A & B & C & D).
    destruct (getters_ignore_x03 h (h2 h)) as (A' & B' & C' & D').
    rewrite SetMessageStatusType_mask in A, B, C, D.
    rewrite <- A, <- B, <- C, <- D, A', B', C', D'. auto.
Qed.
End HeaderFields.

(** ** Reset and the reuse of messages *)

Section Reuse.
Import Go protocol.

(** X4: [Reset] keeps the first byte of the header and zeroes the eleven
    others, empties path, method, metadata and payload, and turns the body
    buffer into a slice of length 0 with the capacity it had.  A message
    that carries the magic number is, after [Reset], what [NewRpcMessage]
    returns, but for that buffer. *)
Theorem Reset_clears (m : Message) :
  Header_bytes (MessageHeader (Reset m)) = h0 (MessageHeader m) :: replicate 11 x00
  /\ ServicePath (Reset m) = EmptyString /\ ServiceMethod (Reset m) = EmptyString
  /\ Metadata (Reset m) = ∅ /\ Payload (Reset m) = []
  /\ slen (data (Reset m)) = 0
  /\ scap (data (Reset m)) = scap (data m)
  /\ (h0 (MessageHeader m) = magicNumber -> public (Reset m) = public NewRpcMessage).
Proof.
  destruct m as [[b0 b1 b2 b3 b4 b5 b6 b7 b8 b9 b10 b11] sp sm md p d].
  repeat split.
  - unfold scap, len. cbn [Reset data arr spare length]. rewrite length_app. lia.
  - cbn [MessageHeader h0]. intros ->. reflexivity.
Qed.

Lemma decoded_metadata_cases iter (md : gmap string string) m0 :
  iter ≡ₚ map_to_list md ->
  decoded_metadata iter m0 = if decide (md = ∅) then Metadata m0 else md.
Proof.
  intros Hperm. destruct iter as [|kv iter].
  - assert (md = ∅) as ->.
    { apply map_to_list_empty_iff. symmetry. now apply Permutation_nil_l. }
    now rewrite decide_True.
  - rewrite decide_False.
    + now apply insert_all_map_to_list.
    + intros ->. rewrite map_to_list_empty in Hperm.
      now apply Permutation_nil_r in Hperm.
Qed.

(** X5: decoding an encoded frame into a message that is in use.  Under
    the conditions of the round trip, [Decode] into any message [m0]
    returns without error, consumes the frame exactly, and leaves in
    [m0] the header, path, method and payload of the frame.  The metadata
    is that of the frame only if the frame carries some: an empty
    metadata section leaves the metadata [m0] had before.  After [Reset]
    the metadata is always that of the frame. *)
Theorem Decode_into_used_message L cs stale iter m m0 rest :
  h0 (MessageHeader m) = magicNumber ->
  iter ≡ₚ map_to_list (Metadata m) ->
  (forall c z, cs (CompressTypeOf (MessageHeader m)) = Some c ->
               Zip c (Payload m) = inl z -> Unzip c z = inl (Payload m)) ->
  totalLength (ServicePath m) (ServiceMethod m) (encodeMetadata iter [])
              (Encode_compress cs m).1 < 2 ^ 32 ->
  (L <= 0 \/ totalLength (ServicePath m) (ServiceMethod m) (encodeMetadata iter [])
                          (Encode_compress cs m).1 <= L) ->
  exists bytes m1,
    Encode cs stale iter m = Returns (bytes, m1)
    /\ (exists m',
         Decode L cs m0 (bytes ++ rest) = Returns (None, m', rest)
         /\ MessageHeader m' = MessageHeader m1
         /\ ServicePath m' = ServicePath m
         /\ ServiceMethod m' = ServiceMethod m
         /\ Payload m' = Payload m
         /\ Metadata m' = if decide (Metadata m = ∅) then Metadata m0 else Metadata m)
    /\ (exists m',
         Decode L cs (Reset m0) (bytes ++ rest) = Returns (None, m', rest)
         /\ Metadata m' = Metadata m).
Proof.
  intros Hmagic Hperm Hlaw Hfit Hlimit.
  rewrite Encode_frame. eexists _, _. split; [reflexivity |].
  unfold frame.
  assert (Hdec : forall m0, exists d,
             Decode L cs m0
               (frame_with (Encode_compress cs m).2 (ServicePath m) (ServiceMethod m)
                  (encodeMetadata iter [])
                  (PutUint32 (wrap32 (len (Encode_compress cs m).1)))
                  (Encode_compress cs m).1 ++ rest)
             = Returns (None,
                        mkMessage (Encode_compress cs m).2 (ServicePath m)
                          (ServiceMethod m) (decoded_metadata iter m0) (Payload m) d,
                        rest)).
  { intros m0'.
    destruct (Decode_frame_with L cs m0' (Encode_compress cs m).2
                (ServicePath m) (ServiceMethod m) iter
                (PutUint32 (wrap32 (len (Encode_compress cs m).1)))
                (Encode_compress cs m).1 rest) as [d Hd];
      [now rewrite h0_Encode_compress | reflexivity | exact Hfit | exact Hlimit |].
    cbv zeta in Hd.
    rewrite Decode_unzip_Encode_compress in Hd by exact Hlaw.
    exists d. exact Hd. }
  split.
  - destruct (Hdec m0) as [d Hd]. eexists. split; [exact Hd |].
    cbn [MessageHeader ServicePath ServiceMethod Payload Metadata with_header].
    repeat split. now apply decoded_metadata_cases.
  - destruct (Hdec (Reset m0)) as [d Hd]. eexists. split; [exact Hd |].
    cbn [Metadata]. now apply decoded_metadata_map_to_list.
Qed.

Lemma Decode_into_used_message_witness :
  exists bytes m1 m',
    Encode (fun _ => None) [] [] bare_message = Returns (bytes, m1)
    /\ Decode 0 (fun _ => None) stale_message (bytes ++ []) = Returns (None, m', [])
    /\ ServicePath m' = "Echo"
    /\ Metadata m' = {["old" := "x"]}.
Proof.
  destruct (Decode_into_used_message 0 (fun _ => None) [] [] bare_message
              stale_message [])
    as (bytes & m1 & HE & (m' & HD & _ & Hsp & _ & _ & Hmd) & _).
  - reflexivity.
  - change (Metadata bare_message) with (∅ : gmap string string).
    now rewrite map_to_list_empty.
  - intros c z Hc. discriminate.
  - vm_compute. reflexivity.
  - left. lia.
  - exists bytes, m1, m'. repeat split; [exact HE | exact HD | exact Hsp |].
    rewrite Hmd. reflexivity.
Defined.
End Reuse.

(** ** Malformed and truncated streams *)

Section BadStreams.
Import Go protocol.

(** X6: a stream whose first byte is not the magic number is rejected by
    [Decode] and by [ParseToBodyLen] with the wrong-magic error that names
    the byte; exactly that byte has been consumed, and it has replaced the
    first byte of the header of the message. *)
Theorem wrong_magic_consumes_one_byte L cs (m : Message) (b : byte) (r : list byte) :
  b <> magicNumber ->
  Decode L cs m (b :: r)
  = Returns (Some (ErrWrongMagic b),
             with_header m (Header_overwrite [b] (MessageHeader m)), r)
  /\ ParseToBodyLen L m (b :: r)
     = Returns (0, Some (ErrWrongMagic b),
                with_header m (Header_overwrite [b] (MessageHeader m)), r)
  /\ h0 (Header_overwrite [b] (MessageHeader m)) = b.
Proof.
  intros Hb.
  assert (Hc : CheckMagicNumber
                 (MessageHeader (with_header m (Header_overwrite [b] (MessageHeader m))))
               = false).
  { unfold CheckMagicNumber. change (h0 _) with b.
    destruct (Byte.eqb b magicNumber) eqn:E; [| reflexivity].
    apply Byte.byte_dec_bl in E. contradiction. }
  unfold Decode, ParseToBodyLen.
  change (b :: r) with ([b] ++ r).
  rewrite (ReadFull_app [b]) by reflexivity.
  rewrite Hc. repeat split.
Qed.

Lemma wrong_magic_consumes_one_byte_witness :
  Decode 0 (fun _ => None) NewRpcMessage [x09; x01; x02]
  = Returns (Some (ErrWrongMagic x09),
             with_header NewRpcMessage
               (Header_overwrite [x09] (MessageHeader NewRpcMessage)),
             [x01; x02]).
Proof.
  apply (wrong_magic_consumes_one_byte 0 (fun _ => None) NewRpcMessage x09 [x01; x02]).
  discriminate.
Defined.

(** The body buffer [Decode] reads into: one of the two branches, both
    of which return. *)
Lemma Decode_buffer_Returns (d0 : Slice) (l : Z) :
  0 <= l ->
  exists d,
    (if scap d0 >=? l then reslice d0 0 l else Returns (make l)) = Returns d
    /\ len (arr d) = l
    /\ scap d = Z.max (scap d0) l.
Proof.
  intros Hl. destruct (scap d0 >=? l) eqn:Hcap.
  - rewrite Z.geb_leb in Hcap. unfold reslice. rewrite Hcap.
    replace ((0 <=? 0) && (0 <=? l)) with true
      by (symmetry; apply andb_true_iff; split; apply Z.leb_le; lia).
    cbn [andb]. eexists. split; [reflexivity |].
    apply Z.leb_le in Hcap. unfold scap, len in *. cbn [arr spare].
    rewrite Z.sub_0_r, length_take, !length_drop, length_app.
    split; lia.
  - assert (Hlt : scap d0 < l).
    { rewrite Z.geb_leb in Hcap. apply Z.leb_gt in Hcap. exact Hcap. }
    eexists. split; [reflexivity |].
    unfold make, scap, len in *. cbn [arr spare length].
    rewrite length_replicate. split; lia.
Qed.
Lemma Uint32_nonneg (b : list byte) (l : Z) : Uint32 b = Returns l -> 0 <= l.
Proof.
  destruct b as [|b0 [|b1 [|b2 [|b3 b]]]]; try discriminate.
  cbn [Uint32]. intros [= <-].
  pose proof (Z_of_byte_range b0). pose proof (Z_of_byte_range b1).
  pose proof (Z_of_byte_range b2). pose proof (Z_of_byte_range b3).
  repeat (apply Z.lor_nonneg; split); try apply Z.shiftl_nonneg; lia.
Qed.

Lemma ReadFull_short (r : list byte) (n : nat) :
  (length r < n)%nat -> exists e, ReadFull r n = (inr e, []).
Proof.
  intros Hlt. unfold ReadFull.
  replace (n <=? length r)%nat with false by (symmetry; apply Nat.leb_gt; lia).
  destruct r; eexists; reflexivity.
Qed.

(** X7: a frame that is cut short.  Any stream that stops before the end
    of a frame (inside the header, inside the length field, or inside the
    body the length field announces) makes [Decode] return an
    end-of-file error ([EOF] or [ErrUnexpectedEOF]) with the stream used
    up: no panic, and no message. *)
Theorem Decode_truncated L cs m h lenData l body (k : nat) :
  h0 h = magicNumber ->
  length lenData = 4%nat ->
  Uint32 lenData = Returns l ->
  (L <= 0 \/ l <= L) ->
  Z.of_nat k < 16 + l ->
  exists e m',
    Decode L cs m (take k (Header_bytes h ++ lenData ++ body))
    = Returns (Some (ErrIO e), m', []).
Proof.
  intros Hmagic Hlen HU Hlimit Hk.
  pose proof (Uint32_nonneg _ _ HU) as Hl0.
  destruct (Nat.lt_ge_cases k 16) as [Hsmall | Hbig].
  - clear Hk HU Hlimit.
    destruct h as [b0 b1 b2 b3 b4 b5 b6 b7 b8 b9 b10 b11].
    cbn [h0] in Hmagic. subst b0.
    destruct lenData as [|c0 [|c1 [|c2 [|c3 [|]]]]]; try discriminate.
    do 16 (destruct k as [|k]; [eexists _, _; vm_compute; reflexivity |]).
    lia.
  - replace (take k (Header_bytes h ++ lenData ++ body))
      with (Header_bytes h ++ lenData ++ take (k - 16) body).
    2:{ rewrite (take_app_ge (Header_bytes h)) by (cbn [length Header_bytes]; lia).
        change (length (Header_bytes h)) with 12%nat. f_equal.
        rewrite take_app_ge by (rewrite Hlen; lia).
        rewrite Hlen. f_equal. f_equal. lia. }
    rewrite (Decode_header L cs m h lenData l _ Hmagic Hlen HU). cbv zeta.
    replace ((L >? 0) && (l >? L)) with false.
    2:{ symmetry. apply andb_false_iff.
        destruct Hlimit; [left | right]; apply gtb_false; lia. }
    destruct (Decode_buffer_Returns (data (with_header m h)) l Hl0) as (d & Hd & _).
    rewrite Hd. cbn [bind].
    destruct (ReadFull_short (take (k - 16) body) (Z.to_nat l)) as [e He].
    { rewrite length_take. lia. }
    rewrite He. eexists _, _. reflexivity.
Qed.

Lemma Decode_truncated_witness :
  exists e m',
    Decode 0 (fun _ => None) NewRpcMessage
           (take 20 (Header_bytes (MessageHeader NewRpcMessage)
                       ++ PutUint32 100 ++ [x01; x02; x03; x04; x05]))
    = Returns (Some (ErrIO e), m', []).
Proof.
  apply (Decode_truncated 0 (fun _ => None) NewRpcMessage
           (MessageHeader NewRpcMessage) (PutUint32 100) 100
           [x01; x02; x03; x04; x05] 20).
  - reflexivity.
  - reflexivity.
  - reflexivity.
  - left. lia.
  - lia.
Defined.

(** X8: a frame that announces a body of fewer than four bytes.  On a
    message whose body buffer has room for fewer than four bytes (a new
    message has none), [Decode] reads the body and then panics on its
    first slice expression, [data[0:4]]. *)
Theorem Decode_runt_frame_panics L cs m h lenData l body rest :
  h0 h = magicNumber ->
  length lenData = 4%nat ->
  Uint32 lenData = Returns l ->
  (L <= 0 \/ l <= L) ->
  l < 4 ->
  scap (data m) < 4 ->
  len body = l ->
  Decode L cs m (Header_bytes h ++ lenData ++ body ++ rest) = Panics.
Proof.
  intros Hmagic Hlen HU Hlimit Hl4 Hcap Hbody.
  pose proof (Uint32_nonneg _ _ HU) as Hl0.
  rewrite (Decode_header L cs m h lenData l _ Hmagic Hlen HU). cbv zeta.
  replace ((L >? 0) && (l >? L)) with false.
  2:{ symmetry. apply andb_false_iff.
      destruct Hlimit; [left | right]; apply gtb_false; lia. }
  destruct (Decode_buffer_Returns (data (with_header m h)) l Hl0) as (d & Hd & Hdl & Hdc).
  rewrite Hd. cbn [bind].
  rewrite ReadFull_app by (unfold len in Hbody; lia).
  cbv zeta. unfold Decode_body, reslice, scap. cbn [arr spare].
  replace ((0 <=? 0) && (0 <=? 4) && (4 <=? len body + len (spare d))) with false;
    [reflexivity |].
  symmetry. apply andb_false_iff. right. apply Z.leb_gt.
  change (data (with_header m h)) with (data m) in Hdc.
  unfold scap in Hdc, Hcap. lia.
Qed.

Lemma Decode_runt_frame_panics_witness :
  Decode 0 (fun _ => None) NewRpcMessage
         (Header_bytes (MessageHeader NewRpcMessage) ++ PutUint32 0 ++ [] ++ [x01])
  = Panics.
Proof.
  apply (Decode_runt_frame_panics 0 (fun _ => None) NewRpcMessage
           (MessageHeader NewRpcMessage) (PutUint32 0) 0 [] [x01]).
  - reflexivity.
  - reflexivity.
  - reflexivity.
  - left. lia.
  - lia.
  - vm_compute. reflexivity.
  - reflexivity.
Defined.
End BadStreams.

(** ** The two encoders and the length parser *)

Section Encoders.
Import Go protocol.

Lemma length_frame_with h sp sm meta declared payload :
  length declared = 4%nat ->
  Z.of_nat (length (frame_with h sp sm meta declared payload))
  = 16 + totalLength sp sm meta payload.
Proof.
  intros Hd. unfold frame_with, totalLength.
  rewrite !length_app, !length_PutUint32, !length_StringToSliceByte, Hd.
  cbn [length Header_bytes]. lia.
Qed.

(** X9: [Encode] returns for every message and every state of the
    buffer pool, and what it returns does not depend on the bytes the
    pooled buffer held.  The frame is 16 bytes longer than the total
    length, starts with the header as [Encode] leaves it, and the message
    keeps its path, method, metadata and payload. *)
Theorem Encode_total_and_pool_independent cs stale stale' iter m :
  Encode cs stale iter m = Encode cs stale' iter m
  /\ exists bytes m1,
       Encode cs stale iter m = Returns (bytes, m1)
       /\ Z.of_nat (length bytes)
          = 16 + totalLength (ServicePath m) (ServiceMethod m)
                             (encodeMetadata iter []) (Encode_compress cs m).1
       /\ take 12 bytes = Header_bytes (MessageHeader m1)
       /\ ServicePath m1 = ServicePath m /\ ServiceMethod m1 = ServiceMethod m
       /\ Metadata m1 = Metadata m /\ Payload m1 = Payload m.
Proof.
  rewrite !Encode_frame. split; [reflexivity |].
  eexists _, _. split; [reflexivity |].
  split; [apply length_frame_with; reflexivity |].
  repeat split.
Qed.

Lemma ParseToBodyLen_header L m h lenData l r :
  h0 h = magicNumber -> length lenData = 4%nat -> Uint32 lenData = Returns l ->
  ParseToBodyLen L m (Header_bytes h ++ lenData ++ r)
  = if (L >? 0) && (l >? L)
    then Returns (0, Some ErrRpcMessageTooLong, with_header m h, r)
    else Returns (l, None, with_header m h, r).
Proof.
  intros Hmagic Hlen HU.
  destruct h as [b0 b1 b2 b3 b4 b5 b6 b7 b8 b9 b10 b11].
  cbn [h0] in Hmagic. subst b0.
  unfold ParseToBodyLen.
  change (Header_bytes _ ++ lenData ++ r)
    with ([magicNumber] ++ [b1; b2; b3; b4; b5; b6; b7; b8; b9; b10; b11]
                        ++ lenData ++ r).
  rewrite (ReadFull_app [magicNumber]) by reflexivity.
  change (CheckMagicNumber _) with true. cbn [negb].
  rewrite (ReadFull_app [b1; b2; b3; b4; b5; b6; b7; b8; b9; b10; b11])
    by reflexivity.
  rewrite (ReadFull_app lenData) by exact Hlen.
  rewrite HU. cbn [bind].
  reflexivity.
Qed.

(** X10: [ParseToBodyLen] on an encoded frame.  When the total length
    fits 32 bits and passes the limit, the length it returns is the
    number of bytes of the frame that are still in the stream: it has
    consumed 16 bytes, and the header it leaves in the message is the
    header of the frame. *)
Theorem ParseToBodyLen_of_Encode L cs stale iter m m0 rest :
  h0 (MessageHeader m) = magicNumber ->
  totalLength (ServicePath m) (ServiceMethod m) (encodeMetadata iter [])
              (Encode_compress cs m).1 < 2 ^ 32 ->
  (L <= 0 \/ totalLength (ServicePath m) (ServiceMethod m) (encodeMetadata iter [])
                          (Encode_compress cs m).1 <= L) ->
  exists bytes m1 body,
    Encode cs stale iter m = Returns (bytes, m1)
    /\ bytes = take 16 bytes ++ body
    /\ ParseToBodyLen L m0 (bytes ++ rest)
       = Returns (len body, None, with_header m0 (MessageHeader m1), body ++ rest).
Proof.
  intros Hmagic Hfit Hlimit.
  rewrite Encode_frame. unfold frame. rewrite frame_with_split.
  set (l := totalLength _ _ _ _) in *.
  set (body := body_with _ _ _ _ _).
  assert (Hl0 : 0 <= l) by (subst l; unfold totalLength; lia).
  assert (Hbody : len body = l)
    by (subst body l; apply length_body_with; reflexivity).
  eexists _, _, body. split; [reflexivity |].
  split.
  - destruct (Encode_compress cs m).2. reflexivity.
  - rewrite <- !app_assoc.
    rewrite (ParseToBodyLen_header L m0 _ _ l);
      [| now rewrite h0_Encode_compress | reflexivity
       | rewrite <- (app_nil_r (PutUint32 _)), wrap32_small by lia;
         apply Uint32_PutUint32; lia].
    replace ((L >? 0) && (l >? L)) with false.
    2:{ symmetry. apply andb_false_iff.
        destruct Hlimit; [left | right]; apply gtb_false; lia. }
    rewrite Hbody. reflexivity.
Qed.

Lemma ParseToBodyLen_of_Encode_witness :
  exists bytes m1 body,
    Encode (fun _ => None) [] [("k", "v")] echo_message = Returns (bytes, m1)
    /\ bytes = take 16 bytes ++ body
    /\ ParseToBodyLen 0 NewRpcMessage (bytes ++ [x07])
       = Returns (len body, None,
                  with_header NewRpcMessage (MessageHeader m1), body ++ [x07]).
Proof.
  apply (ParseToBodyLen_of_Encode 0 (fun _ => None) [] [("k", "v")] echo_message
           NewRpcMessage [x07]).
  - reflexivity.
  - vm_compute. reflexivity.
  - left. lia.
Defined.




(** X12: a frame whose header asks for a compression no compressor is
    registered for.  [Decode] returns [ErrUnsupportedCompressor] after
    consuming the frame; path, method and metadata of the message have
    been replaced by then, and its payload is the payload as it came. *)
Theorem Decode_unregistered_compressor L cs m0 h sp sm iter payload r :
  h0 h = magicNumber ->
  CompressTypeOf h <> CompressNone ->
  cs (CompressTypeOf h) = None ->
  totalLength sp sm (encodeMetadata iter []) payload < 2 ^ 32 ->
  (L <= 0 \/ totalLength sp sm (encodeMetadata iter []) payload <= L) ->
  exists m',
    Decode L cs m0 (frame h sp sm (encodeMetadata iter []) payload ++ r)
    = Returns (Some ErrUnsupportedCompressor, m', r)
    /\ ServicePath m' = sp /\ ServiceMethod m' = sm
    /\ Metadata m' = decoded_metadata iter m0
    /\ Payload m' = payload.
Proof.
  intros Hmagic Hct Hcs Hfit Hlimit.
  destruct (Decode_frame_with L cs m0 h sp sm iter
              (PutUint32 (wrap32 (len payload))) payload r
              Hmagic eq_refl Hfit Hlimit) as [d Hd].
  cbv zeta in Hd. unfold Decode_unzip in Hd. cbn [MessageHeader] in Hd.
  destruct (Byte.eqb (CompressTypeOf h) CompressNone) eqn:E.
  { apply Byte.byte_dec_bl in E. contradiction. }
  cbn [negb] in Hd. rewrite Hcs in Hd. cbn [fst snd] in Hd.
  eexists. split; [exact Hd |]. repeat split.
Qed.

Lemma Decode_unregistered_compressor_witness :
  exists m',
    Decode 0 (fun _ => None) NewRpcMessage
      (frame (MessageHeader gzip_message) "Echo" "Call"
             (encodeMetadata [("k", "v")] []) [x01; x02] ++ [])
    = Returns (Some ErrUnsupportedCompressor, m', [])
    /\ Payload m' = [x01; x02].
Proof.
  destruct (Decode_unregistered_compressor 0 (fun _ => None) NewRpcMessage
              (MessageHeader gzip_message) "Echo" "Call" [("k", "v")] [x01; x02] [])
    as (m' & HD & _ & _ & _ & HP).
  - reflexivity.
  - vm_compute. discriminate.
  - reflexivity.
  - vm_compute. reflexivity.
  - left. lia.
  - exists m'. split; [exact HD | exact HP].
Defined.

(** X13: [Clone] copies the header with the compression code cleared
    (message type, heartbeat, oneway, status and every byte but the flag
    byte are those of the original), the path and the method.  It does
    not copy the metadata or the payload: those of the clone are the ones
    the pooled message came with. *)
Theorem Clone_copies_routing (pooled m : Message) :
  let c := Clone pooled m in
  CompressTypeOf (MessageHeader c) = CompressNone
  /\ MessageType (MessageHeader c) = MessageType (MessageHeader m)
  /\ IsHeartbeat (MessageHeader c) = IsHeartbeat (MessageHeader m)
  /\ IsOneway (MessageHeader c) = IsOneway (MessageHeader m)
  /\ MessageStatusType (MessageHeader c) = MessageStatusType (MessageHeader m)
  /\ take 2 (Header_bytes (MessageHeader c)) = take 2 (Header_bytes (MessageHeader m))
  /\ drop 3 (Header_bytes (MessageHeader c)) = drop 3 (Header_bytes (MessageHeader m))
  /\ ServicePath c = ServicePath m /\ ServiceMethod c = ServiceMethod m
  /\ Metadata c = Metadata pooled /\ Payload c = Payload pooled.
Proof.
  intros c. subst c. unfold Clone. cbn [MessageHeader ServicePath ServiceMethod
                                         Metadata Payload].
  set (h := MessageHeader m).
  destruct (getters_read_h2 h) as (G1 & G2 & G3 & G4 & G5).
  destruct (getters_ignore_x1c h
              (bor (bandnot (h2 h) x1c) (band (bshl CompressNone 2) x1c)))
    as (A & B & C & D).
  destruct (getters_ignore_x1c h (h2 h)) as (A' & B' & C' & D').
  rewrite SetCompressType_mask in A, B, C, D.
  split; [apply CompressTypeOf_cleared |].
  unfold SetCompressType.
  rewrite <- A, <- B, <- C, <- D, A', B', C', D'.
  repeat split; auto.
Qed.
End Encoders.

(** ** Metadata sections that do not come from the encoder *)

Section MetadataDecoder.
Import Go protocol.

(** The loop of [decodeMetadata] over the pairs [todo] that start at the
    cursor, whatever follows them in the section: it decodes them and
    stands behind them, with the fuel it has not used. *)
Lemma decodeMetadata_loop_prefix (todo : list (string * string)) :
  forall (fuel : nat) (decoded tail spare : list byte) (l : Z) (m : gmap string string),
    l = len (decoded ++ flat_map encode_pair todo ++ tail) ->
    l < 2 ^ 32 ->
    decodeMetadata_loop (length todo + fuel) l
      (mkSlice (decoded ++ flat_map encode_pair todo ++ tail) spare) (len decoded) m
    = decodeMetadata_loop fuel l
        (mkSlice (decoded ++ flat_map encode_pair todo ++ tail) spare)
        (len (decoded ++ flat_map encode_pair todo)) (insert_all todo m).
Proof.
  induction todo as [|[k v] todo IH]; intros fuel decoded tail spare l m Hl Hfit.
  - cbn [flat_map length insert_all foldl Nat.add]. now rewrite app_nil_r.
  - cbn [length Nat.add].
    cbn [flat_map] in *.
    set (kb := StringToSliceByte k) in *.
    set (vb := StringToSliceByte v) in *.
    set (rest := flat_map encode_pair todo) in *.
    assert (Hpair : encode_pair (k, v)
                    = PutUint32 (wrap32 (len kb)) ++ kb
                      ++ PutUint32 (wrap32 (len vb)) ++ vb) by reflexivity.
    rewrite Hpair in *. clear Hpair.
    unfold len in Hl. rewrite !length_app, !length_PutUint32 in Hl.
    assert (Hkb : wrap32 (len kb) = len kb) by (apply wrap32_small; unfold len; lia).
    assert (Hvb : wrap32 (len vb) = len vb) by (apply wrap32_small; unfold len; lia).
    rewrite Hkb, Hvb.
    set (n0 := len decoded).
    assert (Hn0 : n0 = Z.of_nat (length decoded)) by reflexivity.
    cbn [decodeMetadata_loop].
    replace (n0 <? l) with true by (symmetry; apply Z.ltb_lt; lia).
    rewrite (wrap32_small (n0 + 4)) by lia.
    rewrite (reslice_at _ spare decoded (PutUint32 (len kb))
               (kb ++ PutUint32 (len vb) ++ vb ++ rest ++ tail) n0 (n0 + 4));
      [| now rewrite <- !app_assoc | reflexivity | reflexivity].
    cbn [bind arr].
    rewrite <- (app_nil_r (PutUint32 (len kb))) at 1.
    rewrite Uint32_PutUint32 by (unfold len; lia). cbn [bind].
    rewrite (wrap32_small (n0 + 4 + len kb)) by (unfold len; lia).
    rewrite (wrap32_small (l - 4)) by lia.
    rewrite gtb_false by (unfold len; lia).
    rewrite (reslice_at _ spare (decoded ++ PutUint32 (len kb)) kb
               (PutUint32 (len vb) ++ vb ++ rest ++ tail) (n0 + 4) (n0 + 4 + len kb));
      [| now rewrite <- !app_assoc
       | unfold len; rewrite length_app, length_PutUint32; lia | reflexivity].
    cbn [bind arr].
    rewrite (wrap32_small (n0 + 4 + len kb + 4)) by (unfold len; lia).
    rewrite (reslice_at _ spare ((decoded ++ PutUint32 (len kb)) ++ kb)
               (PutUint32 (len vb)) (vb ++ rest ++ tail)
               (n0 + 4 + len kb) (n0 + 4 + len kb + 4));
      [| now rewrite <- !app_assoc
       | unfold len; rewrite !length_app, length_PutUint32; lia | reflexivity].
    cbn [bind arr].
    rewrite <- (app_nil_r (PutUint32 (len vb))) at 1.
    rewrite Uint32_PutUint32 by (unfold len; lia). cbn [bind].
    rewrite (wrap32_small (n0 + 4 + len kb + 4 + len vb)) by (unfold len; lia).
    rewrite gtb_false by (unfold len; lia).
    rewrite (reslice_at _ spare
               (((decoded ++ PutUint32 (len kb)) ++ kb) ++ PutUint32 (len vb))
               vb (rest ++ tail) (n0 + 4 + len kb + 4) (n0 + 4 + len kb + 4 + len vb));
      [| now rewrite <- !app_assoc
       | unfold len; rewrite !length_app, !length_PutUint32; lia | reflexivity].
    cbn [bind arr].
    subst kb vb. rewrite !SliceByteToString_StringToSliceByte.
    specialize (IH fuel
                  (decoded ++ PutUint32 (len (StringToSliceByte k))
                           ++ StringToSliceByte k
                           ++ PutUint32 (len (StringToSliceByte v))
                           ++ StringToSliceByte v)
                  tail spare l (<[k := v]> m)).
    rewrite <- !app_assoc in IH.
    replace (n0 + 4 + len (StringToSliceByte k) + 4 + len (StringToSliceByte v))
      with (len (decoded ++ PutUint32 (len (StringToSliceByte k))
                         ++ StringToSliceByte k
                         ++ PutUint32 (len (StringToSliceByte v))
                         ++ StringToSliceByte v))
      by (unfold len; rewrite !length_app, !length_PutUint32; lia).
    change (insert_all ((k, v) :: todo) m) with (insert_all todo (<[k := v]> m)).
    rewrite <- !app_assoc.
    rewrite IH; [reflexivity | | exact Hfit].
    unfold len. rewrite !length_app, !length_PutUint32. lia.
Qed.

(** The fuel [decodeMetadata] starts with, split into one round for each
    pair of a prefix and a rest that is not empty. *)
Lemma decodeMetadata_fuel_split (pairs : list (string * string)) (tail : list byte) :
  exists fuel,
    S (Z.to_nat (len (flat_map encode_pair pairs ++ tail)))
    = (length pairs + S fuel)%nat.
Proof.
  pose proof (length_flat_encode_pair pairs) as H8.
  exists (Z.to_nat (len (flat_map encode_pair pairs ++ tail)) - length pairs)%nat.
  unfold len. rewrite length_app. lia.
Qed.

Lemma insert_all_snoc (l : list (string * string)) kv (acc : gmap string string) :
  insert_all (l ++ [kv]) acc = <[kv.1 := kv.2]> (insert_all l acc).
Proof. unfold insert_all. now rewrite foldl_app. Qed.

(** Pairs inserted one after the other: for a key that occurs more than
    once, the last pair stands. *)
Lemma insert_all_last_wins (pairs : list (string * string)) :
  insert_all pairs ∅ = list_to_map (reverse pairs).
Proof.
  induction pairs as [|kv pairs IH] using rev_ind; [reflexivity |].
  rewrite insert_all_snoc, reverse_snoc, IH. reflexivity.
Qed.
(** X14: a metadata section may name a key more than once (a peer can
    send that; the encoder, fed from a map, never does).  [decodeMetadata]
    on the encoding of any list of pairs, whatever lies behind the section
    in the buffer, returns without error the map in which each key has
    the value of its last pair. *)
Theorem decodeMetadata_last_pair_wins (pairs : list (string * string)) (spare : list byte) :
  len (encodeMetadata pairs []) < 2 ^ 32 ->
  decodeMetadata (len (encodeMetadata pairs [])) (mkSlice (encodeMetadata pairs []) spare)
  = Returns (list_to_map (reverse pairs), None).
Proof.
  intros Hfit. rewrite decodeMetadata_encoded by exact Hfit.
  now rewrite insert_all_last_wins.
Qed.

Lemma decodeMetadata_last_pair_wins_witness :
  decodeMetadata (len (encodeMetadata [("k", "1"); ("j", "2"); ("k", "3")] []))
                 (mkSlice (encodeMetadata [("k", "1"); ("j", "2"); ("k", "3")] []) [xff])
  = Returns ({["k" := "3"; "j" := "2"]}, None).
Proof.
  rewrite (decodeMetadata_last_pair_wins [("k", "1"); ("j", "2"); ("k", "3")] [xff]).
  - reflexivity.
  - vm_compute. reflexivity.
Defined.

Lemma decodeMetadata_key_overrun_gen (pairs : list (string * string)) (sl : Z)
    (tail spare : list byte) :
  let section := flat_map encode_pair pairs ++ PutUint32 sl ++ tail in
  len section < 2 ^ 32 ->
  0 <= sl ->
  len (flat_map encode_pair pairs) + 4 + sl < 2 ^ 32 ->
  len section - 4 < len (flat_map encode_pair pairs) + 4 + sl ->
  decodeMetadata (len section) (mkSlice section spare)
  = Returns (insert_all pairs ∅, Some ErrMetaKVMissing).
Proof.
  intros section Hfit Hsl Hnowrap Hover. subst section.
  set (flat := flat_map encode_pair pairs) in *.
  set (l := len (flat ++ PutUint32 sl ++ tail)) in *.
  assert (Hl : l = len flat + 4 + len tail).
  { subst l. unfold len. rewrite !length_app, length_PutUint32. lia. }
  unfold decodeMetadata.
  destruct (decodeMetadata_fuel_split pairs (PutUint32 sl ++ tail)) as [fuel Hfuel].
  fold flat in Hfuel. fold l in Hfuel. rewrite Hfuel.
  pose proof (decodeMetadata_loop_prefix pairs (S fuel) [] (PutUint32 sl ++ tail)
                spare l ∅ eq_refl Hfit) as Hloop.
  cbn [app] in Hloop. fold flat in Hloop.
  change (len (@nil byte)) with 0 in Hloop. rewrite Hloop. clear Hloop.
  cbn [decodeMetadata_loop].
  replace (len flat <? l) with true by (symmetry; apply Z.ltb_lt; unfold len in *; lia).
  rewrite (wrap32_small (len flat + 4)) by (unfold len in *; lia).
  rewrite (reslice_at _ spare flat (PutUint32 sl) tail (len flat) (len flat + 4));
    [| reflexivity | reflexivity | reflexivity].
  cbn [bind arr].
  rewrite <- (app_nil_r (PutUint32 sl)) at 1.
  rewrite Uint32_PutUint32 by (unfold len in *; lia). cbn [bind].
  rewrite (wrap32_small (len flat + 4 + sl)) by (unfold len in *; lia).
  rewrite (wrap32_small (l - 4)) by (unfold len in *; lia).
  rewrite gtb_true by lia. reflexivity.
Qed.

(** X15: a key length that does not fit.  Behind any number of
    well-formed pairs, a key-length field whose key, together with the
    length field of its value, would pass the end of the section makes
    [decodeMetadata] return [ErrMetaKVMissing] with the pairs decoded so
    far, as long as cursor plus length stays below 2^32. *)
Theorem decodeMetadata_key_overrun (pairs : list (string * string)) (sl : Z)
    (tail spare : list byte) :
  let section := flat_map encode_pair pairs ++ PutUint32 sl ++ tail in
  len section < 2 ^ 32 ->
  0 <= sl ->
  len (flat_map encode_pair pairs) + 4 + sl < 2 ^ 32 ->
  len section - 4 < len (flat_map encode_pair pairs) + 4 + sl ->
  decodeMetadata (len section) (mkSlice section spare)
  = Returns (insert_all pairs ∅, Some ErrMetaKVMissing).
Proof. apply decodeMetadata_key_overrun_gen. Qed.

Lemma decodeMetadata_key_overrun_witness :
  decodeMetadata 15 (mkSlice (flat_map encode_pair [("k", "v")] ++ PutUint32 9 ++ [x61]) [])
  = Returns ({["k" := "v"]}, Some ErrMetaKVMissing).
Proof.
  apply (decodeMetadata_key_overrun [("k", "v")] 9 [x61] []).
  - vm_compute. reflexivity.
  - lia.
  - vm_compute. reflexivity.
  - vm_compute. reflexivity.
Defined.

(** X16: a value length that does not fit.  Behind any number of
    well-formed pairs and a well-formed key, a value-length field that
    would pass the end of the section makes [decodeMetadata] return
    [ErrMetaKVMissing] with the pairs decoded so far (the key whose value
    is missing is not in the map), as long as cursor plus length stays
    below 2^32. *)
Theorem decodeMetadata_value_overrun (pairs : list (string * string)) (k : string)
    (sl : Z) (tail spare : list byte) :
  let kb := StringToSliceByte k in
  let before := flat_map encode_pair pairs ++ PutUint32 (len kb) ++ kb in
  let section := before ++ PutUint32 sl ++ tail in
  len section < 2 ^ 32 ->
  0 <= sl ->
  len before + 4 + sl < 2 ^ 32 ->
  len section < len before + 4 + sl ->
  decodeMetadata (len section) (mkSlice section spare)
  = Returns (insert_all pairs ∅, Some ErrMetaKVMissing).
Proof.
  intros kb before section Hfit Hsl Hnowrap Hover. subst section before.
  set (flat := flat_map encode_pair pairs) in *.
  rewrite <- !app_assoc in *.
  set (l := len (flat ++ PutUint32 (len kb) ++ kb ++ PutUint32 sl ++ tail)) in *.
  assert (Hl : l = len flat + 4 + len kb + 4 + len tail).
  { subst l. unfold len. rewrite !length_app, !length_PutUint32. lia. }
  assert (Hb : len (flat ++ PutUint32 (len kb) ++ kb) = len flat + 4 + len kb).
  { unfold len. rewrite !length_app, !length_PutUint32. lia. }
  rewrite Hb in *.
  unfold decodeMetadata.
  destruct (decodeMetadata_fuel_split pairs
              (PutUint32 (len kb) ++ kb ++ PutUint32 sl ++ tail)) as [fuel Hfuel].
  fold flat in Hfuel. fold l in Hfuel. rewrite Hfuel.
  pose proof (decodeMetadata_loop_prefix pairs (S fuel) []
                (PutUint32 (len kb) ++ kb ++ PutUint32 sl ++ tail)
                spare l ∅ eq_refl Hfit) as Hloop.
  cbn [app] in Hloop. fold flat in Hloop.
  change (len (@nil byte)) with 0 in Hloop. rewrite Hloop. clear Hloop.
  cbn [decodeMetadata_loop].
  replace (len flat <? l) with true by (symmetry; apply Z.ltb_lt; unfold len in *; lia).
  rewrite (wrap32_small (len flat + 4)) by (unfold len in *; lia).
  rewrite (reslice_at _ spare flat (PutUint32 (len kb))
             (kb ++ PutUint32 sl ++ tail) (len flat) (len flat + 4));
    [| reflexivity | reflexivity | reflexivity].
  cbn [bind arr].
  rewrite <- (app_nil_r (PutUint32 (len kb))) at 1.
  rewrite Uint32_PutUint32 by (unfold len in *; lia). cbn [bind].
  rewrite (wrap32_small (len flat + 4 + len kb)) by (unfold len in *; lia).
  rewrite (wrap32_small (l - 4)) by (unfold len in *; lia).
  rewrite gtb_false by (unfold len in *; lia).
  rewrite (reslice_at _ spare (flat ++ PutUint32 (len kb)) kb
             (PutUint32 sl ++ tail) (len flat + 4) (len flat + 4 + len kb));
    [| now rewrite <- !app_assoc
     | unfold len; rewrite length_app, length_PutUint32; lia | reflexivity].
  cbn [bind arr].
  rewrite (wrap32_small (len flat + 4 + len kb + 4)) by (unfold len in *; lia).
  rewrite (reslice_at _ spare ((flat ++ PutUint32 (len kb)) ++ kb)
             (PutUint32 sl) tail
             (len flat + 4 + len kb) (len flat + 4 + len kb + 4));
    [| now rewrite <- !app_assoc
     | unfold len; rewrite !length_app, length_PutUint32; lia | reflexivity].
  cbn [bind arr].
  rewrite <- (app_nil_r (PutUint32 sl)) at 1.
  rewrite Uint32_PutUint32 by (unfold len in *; lia). cbn [bind].
  rewrite (wrap32_small (len flat + 4 + len kb + 4 + sl)) by (unfold len in *; lia).
  rewrite gtb_true by lia. reflexivity.
Qed.

Lemma decodeMetadata_value_overrun_witness :
  decodeMetadata 20
    (mkSlice ((flat_map encode_pair [("k", "v")]
                 ++ PutUint32 (len (StringToSliceByte "a")) ++ StringToSliceByte "a")
                ++ PutUint32 2 ++ [x62]) [])
  = Returns ({["k" := "v"]}, Some ErrMetaKVMissing).
Proof.
  apply (decodeMetadata_value_overrun [("k", "v")] "a" 2 [x62] []).
  - vm_compute. reflexivity.
  - lia.
  - vm_compute. reflexivity.
  - vm_compute. reflexivity.
Defined.
End MetadataDecoder.

(** * Further properties of the server *)

(** ** The handler chain *)

Section HandlerChain.
Import Go server.
Variable body : HandlerFunc -> list action.

Lemma Next_loop_done fuel (hs : list HandlerFunc) idx log :
  len hs <= idx -> Next_loop body (S fuel) hs idx log = Returns (idx, log).
Proof.
  intros H. cbn [Next_loop].
  replace (idx <? len hs) with false by (symmetry; apply Z.ltb_ge; lia).
  reflexivity.
Qed.

(** A handler that runs when the chain is already used up: its calls of
    [Next] do nothing but move the cursor. *)
Lemma run_handler_done fuel (hs : list HandlerFunc) (acts : list action) :
  forall idx log,
    len hs <= idx + 1 ->
    exists idx',
      run_handler (fun i l => Next_loop body (S fuel) hs (i + 1) l) acts idx log
      = Returns (idx', log ++ emits acts)
      /\ idx <= idx'.
Proof.
  induction acts as [|[t|] acts IH]; intros idx log Hidx; cbn [run_handler emits].
  - exists idx. rewrite app_nil_r. split; [reflexivity | lia].
  - destruct (IH idx (log ++ [t]) Hidx) as (idx' & Hrun & Hle).
    exists idx'. rewrite Hrun, <- app_assoc. split; [reflexivity | lia].
  - rewrite Next_loop_done by lia. cbn [bind fst snd].
    destruct (IH (idx + 1) log ltac:(lia)) as (idx' & Hrun & Hle).
    exists idx'. rewrite Hrun. split; [reflexivity | lia].
Qed.

(** A handler at cursor [idx] when the rest of the chain, entered at
    [idx + 1], produces [rest]: without a call of [Next] the cursor stays;
    with one, the rest of the chain runs inside the handler. *)
Lemma run_handler_chain fuel (hs : list HandlerFunc) (rest : list nat) idx
    (acts : list action) :
  (forall log, exists idx',
      Next_loop body (S fuel) hs (idx + 1) log = Returns (idx', log ++ rest)
      /\ len hs <= idx') ->
  forall log, exists idx',
    run_handler (fun i l => Next_loop body (S fuel) hs (i + 1) l) acts idx log
    = Returns (idx', log ++ before_next acts
                         ++ (if calls_next acts then rest else [])
                         ++ after_next acts)
    /\ (if calls_next acts then len hs <= idx' else idx' = idx).
Proof.
  intros Hrest.
  induction acts as [|[t|] acts IH]; intros log;
    cbn [run_handler before_next after_next calls_next].
  - exists idx. rewrite !app_nil_r. split; reflexivity.
  - destruct (IH (log ++ [t])) as (idx' & Hrun & Hidx).
    exists idx'. rewrite Hrun, <- app_assoc. split; [reflexivity | exact Hidx].
  - destruct (Hrest log) as (i1 & Hnext & Hi1). rewrite Hnext. cbn [bind fst snd].
    destruct (run_handler_done fuel hs acts i1 (log ++ rest) ltac:(lia))
      as (idx' & Hrun & Hle).
    exists idx'. rewrite Hrun. cbn [app]. rewrite <- app_assoc.
    split; [reflexivity | lia].
Qed.

Lemma chain_log_cons acts chain :
  chain_log (acts :: chain)
  = before_next acts ++ chain_log chain ++ after_next acts.
Proof. reflexivity. Qed.

Lemma no_next_emits acts :
  calls_next acts = false -> before_next acts = emits acts /\ after_next acts = [].
Proof.
  induction acts as [|[t|] acts IH]; cbn; intros H; try discriminate.
  - now split.
  - destruct (IH H) as [-> ->]. now split.
Qed.

(** The loop of [Next] entered at cursor [idx] with [n] handlers left. *)
Lemma Next_loop_chain (hs : list HandlerFunc) (n : nat) :
  forall fuel idx log,
    0 <= idx ->
    n = Z.to_nat (len hs - idx) ->
    (n < fuel)%nat ->
    exists idx',
      Next_loop body fuel hs idx log
      = Returns (idx', log ++ chain_log (map body (drop (Z.to_nat idx) hs)))
      /\ len hs <= idx'.
Proof.
  induction n as [|n IH]; intros fuel idx log Hidx Hn Hfuel.
  - destruct fuel as [|fuel]; [lia |].
    rewrite Next_loop_done by lia.
    rewrite drop_ge by (unfold len in *; lia).
    exists idx. cbn [map chain_log]. rewrite app_nil_r. split; [reflexivity | lia].
  - destruct fuel as [|fuel]; [lia |].
    destruct fuel as [|fuel]; [lia |].
    assert (Hlt : (Z.to_nat idx < length hs)%nat) by (unfold len in *; lia).
    destruct (lookup_lt_is_Some_2 hs _ Hlt) as [h Hh].
    rewrite (drop_S _ _ _ Hh). cbn [map]. rewrite chain_log_cons.
    remember (S fuel) as fuel1 eqn:Hfuel1.
    cbn [Next_loop].
    replace (idx <? len hs) with true by (symmetry; apply Z.ltb_lt; unfold len in *; lia).
    replace (idx <? 0) with false by (symmetry; apply Z.ltb_ge; lia).
    rewrite Hh. subst fuel1.
    assert (Hrest : forall log0, exists idx',
               Next_loop body (S fuel) hs (idx + 1) log0
               = Returns (idx', log0 ++ chain_log (map body (drop (S (Z.to_nat idx)) hs)))
               /\ len hs <= idx').
    { intros log0.
      destruct (IH (S fuel) (idx + 1) log0 ltac:(lia) ltac:(lia) ltac:(lia))
        as (i' & Hi' & Hle).
      exists i'. replace (S (Z.to_nat idx)) with (Z.to_nat (idx + 1)) by lia.
      now split. }
    destruct (run_handler_chain fuel hs _ idx (body h) Hrest log)
      as (i1 & Hrun & Hi1).
    rewrite Hrun. cbn [bind fst snd].
    destruct (calls_next (body h)) eqn:Hcalls.
    + rewrite Next_loop_done by lia.
      exists (i1 + 1). split; [reflexivity | lia].
    + subst i1. destruct (no_next_emits _ Hcalls) as [Hb Ha].
      rewrite Ha, !app_nil_r. cbn [app].
      destruct (Hrest (log ++ before_next (body h))) as (i' & Hi' & Hle).
      rewrite Hi'. exists i'. rewrite <- app_assoc. split; [reflexivity | exact Hle].
Qed.

(** X20: [Next] on a context whose cursor is at [-1] or further runs
    every handler behind the cursor exactly once and in order, nested:
    the effects of a handler before its call of [Next], the rest of the
    chain, the effects after the call.  A handler that does not call
    [Next] does not stop the chain: the loop of the caller runs the
    handlers behind it.  [Next] returns with the cursor at or behind the
    end of the chain, and a second call runs nothing. *)
Theorem Next_runs_every_handler (c : routeContext) (log : list nat) :
  -1 <= index c ->
  exists c',
    Next body c log
    = Returns (c', log ++ chain_log (map body (drop (Z.to_nat (index c + 1))
                                                    (handlers c))))
    /\ handlers c' = handlers c
    /\ len (handlers c) <= index c'
    /\ exists c'', Next body c' [] = Returns (c'', []).
Proof.
  intros Hidx. unfold Next.
  destruct (Next_loop_chain (handlers c) _
              (S (Z.to_nat (len (handlers c) - (index c + 1))))
              (index c + 1) log ltac:(lia) eq_refl ltac:(lia))
    as (i' & Hloop & Hle).
  rewrite Hloop. cbn [bind fst snd].
  eexists. split; [reflexivity |].
  cbn [handlers index with_index]. split; [reflexivity |]. split; [exact Hle |].
  rewrite Next_loop_done by lia.
  eexists. reflexivity.
Qed.
End HandlerChain.

Lemma Next_runs_every_handler_witness :
  exists c',
    server.Next example_body
      (server.mkRouteContext server.Background None None "" "" [1%nat; 2%nat; 3%nat]
                             (-1) None None None None) []
    = Go.Returns (c', [10%nat; 20%nat; 30%nat; 11%nat]).
Proof.
  destruct (Next_runs_every_handler example_body
              (server.mkRouteContext server.Background None None "" ""
                                     [1%nat; 2%nat; 3%nat] (-1) None None None None) [])
    as (c' & HN & _).
  - cbn. lia.
  - exists c'. exact HN.
Defined.

(** ** The key-value store of a context *)

Section ContextStore.
Import Go server.
Variable derived_Value : nat -> key -> option string.

(** X17: the store of a context under string keys.  A value that was
    set is read back; setting one key does not change what another one
    reads; a deleted key reads what the underlying context answers, as
    does a key that was never set; [Remove] is [DeleteKey] on a string
    key.  Keys that are not strings are ignored by [SetValue] and
    [DeleteKey] and read [nil], whatever the underlying context holds
    for them. *)
Theorem store_set_get_delete (c : routeContext) (k : string) (v : string) :
  (Value derived_Value (SetValue c (StringKey k) v) (StringKey k)).1 = Some v
  /\ (forall k', k' <> k ->
        (Value derived_Value (SetValue c (StringKey k) v) (StringKey k')).1
        = (Value derived_Value c (StringKey k')).1)
  /\ (Value derived_Value (DeleteKey (SetValue c (StringKey k) v) (StringKey k))
            (StringKey k)).1
     = context_Value derived_Value (rawCtx c) (StringKey k)
  /\ (storage c = None ->
      (Value derived_Value c (StringKey k)).1
      = context_Value derived_Value (rawCtx c) (StringKey k))
  /\ Remove c k = DeleteKey c (StringKey k)
  /\ (forall n, SetValue c (OtherKey n) v = c /\ DeleteKey c (OtherKey n) = c
                /\ Value derived_Value c (OtherKey n) = (None, c)).
Proof.
  split; [| split; [| split; [| split; [| split]]]].
  - unfold Value, SetValue. cbn [storage with_storage].
    now rewrite lookup_insert_eq.
  - intros k' Hne. unfold Value, SetValue. cbn [storage with_storage rawCtx].
    rewrite lookup_insert_ne by congruence.
    destruct (storage c) as [st|]; cbn [with_storage rawCtx];
      match goal with |- context [?m !! k'] => destruct (m !! k') end; reflexivity.
  - unfold Value, DeleteKey, SetValue. cbn [storage with_storage rawCtx].
    now rewrite lookup_delete_eq.
  - intros Hnil. unfold Value. rewrite Hnil. cbn [with_storage rawCtx].
    now rewrite lookup_empty.
  - unfold Remove, DeleteKey. reflexivity.
  - intros n. repeat split.
Qed.

(** X18: nothing a previous request stored can be read from a context
    that [AllocateContext] hands out: whatever the pool holds, every key
    reads [nil] in it. *)
Theorem AllocateContext_store_is_empty (self : SessionPtr) (s : baseSession) (k : key) :
  (Value derived_Value (AllocateContext self s).1 k).1 = None.
Proof.
  destruct s as [i cl o q pool a].
  unfold AllocateContext. cbn [ctxPool].
  destruct pool as [|c pool]; cbn [Pool_Get fst]; destruct k; reflexivity.
Qed.
End ContextStore.

(** ** Writes that are not attempted *)

Section NoAttempt.
Import Go server.
Context {C : Type}.
Variable Write : C -> list byte -> option conn_error * C.

(** X19: with an attempt count of zero or less [attemptConnWrite] does
    not write: it returns no error, makes no attempt and leaves the
    connection as it is. *)
Theorem attemptConnWrite_no_attempts (msg : list byte) (attemptTimes : Z) (conn : C) :
  attemptTimes <= 0 ->
  attemptConnWrite Write msg attemptTimes conn = (None, [], conn).
Proof.
  intros H. unfold attemptConnWrite.
  replace (Z.to_nat attemptTimes) with 0%nat by lia. reflexivity.
Qed.
End NoAttempt.

Lemma attemptConnWrite_no_attempts_witness :
  server.attemptConnWrite flaky_Write [x01] 0 0%nat = (None, [], 0%nat).
Proof.
  apply (attemptConnWrite_no_attempts flaky_Write [x01] 0 0%nat). lia.
Defined.

(** ** The decoder loop always ends *)

(** X22: [decodeMetadata] ends on every input, well-formed or not: a
    round that does not return or panic moves the cursor forward by at
    least four bytes and keeps it at or below the declared length, also
    when the [uint32] sums wrap, so the rounds the declared length allows
    are enough. *)
Theorem decodeMetadata_never_out_of_fuel (l : Z) (data : Go.Slice) :
  0 <= l -> protocol.decodeMetadata l data <> Go.OutOfFuel.
Proof. apply decodeMetadata_terminates. Qed.

Lemma decodeMetadata_never_out_of_fuel_witness :
  protocol.decodeMetadata 2 (Go.mkSlice [x00; x00] [x00; x00; xff; xff; xff; xf8])
  <> Go.OutOfFuel.
Proof.
  apply (decodeMetadata_never_out_of_fuel 2
           (Go.mkSlice [x00; x00] [x00; x00; xff; xff; xff; xf8])).
  lia.
Defined.

(** ** A frame with a malformed metadata section *)

Section MetadataErrorInFrame.
Import Go protocol.



End MetadataErrorInFrame.
